(** * Course Checker: document normalisation and structured response recovery

    A shallow embedding of the two core subsystems of the course checker:

    - [services/fileProcessor.js]: [processFile], [processPDF],
      [processPDFWithPdf2Pic], [processPDFWithTextExtraction],
      [createTextImage], [processImage];
    - the AI service (the second unnamed source part): the response handling
      of [analyzeContent] and [analyzeContentWithStatement].

    JavaScript strings are modelled as Rocq [string]s, i.e. as sequences of
    code units below 256; the JavaScript whitespace class ([\s], [trim]) is
    restricted accordingly to tab, line feed, vertical tab, form feed,
    carriage return, space and no-break space (U+00A0).

    External capabilities (pdf2pic, sharp, pdf-parse, [JSON.parse]) are
    Section variables: every theorem holds for every behaviour they may
    have, and concrete instances are only used to run the code on examples. *)

From Stdlib Require Import Ascii String List Arith Bool Lia QArith.
From Stdlib Require Import Numbers.DecimalString Numbers.DecimalNat.
Import ListNotations.
Open Scope nat_scope.
Open Scope string_scope.

(** ** JavaScript string primitives *)

Module JsString.

(** Membership in the whitespace class of [String.prototype.trim] and of
    the regular-expression class [\s]. *)
Definition is_ws (c : ascii) : bool :=
  let n := nat_of_ascii c in
  ((9 <=? n) && (n <=? 13) || (n =? 32) || (n =? 160))%nat.

Arguments is_ws : simpl never.

Fixpoint trimStart (s : string) : string :=
  match s with
  | EmptyString => EmptyString
  | String c r => if is_ws c then trimStart r else s
  end.

Fixpoint trimEnd (s : string) : string :=
  match s with
  | EmptyString => EmptyString
  | String c r =>
      match trimEnd r with
      | EmptyString => if is_ws c then EmptyString else String c EmptyString
      | r' => String c r'
      end
  end.

(** [s.trim()] *)
Definition trim (s : string) : string := trimEnd (trimStart s).

(** [s.startsWith(p)] *)
Fixpoint startsWith (p s : string) : bool :=
  match p, s with
  | EmptyString, _ => true
  | String _ _, EmptyString => false
  | String a p', String b s' => Ascii.eqb a b && startsWith p' s'
  end.

(** [s.endsWith(suf)] *)
Definition endsWith (suf s : string) : bool :=
  let n := String.length s in
  let m := String.length suf in
  ((m <=? n)%nat) && String.eqb (substring (n - m)%nat m s) suf.

(** [s.includes(sub)] *)
Fixpoint includes (sub s : string) : bool :=
  startsWith sub s ||
  match s with
  | EmptyString => false
  | String _ r => includes sub r
  end.

(** [s.substring(n)] for [n <= s.length] *)
Definition drop (n : nat) (s : string) : string := substring n (String.length s - n) s.

(** [head_ok s]: [s] is empty or starts with a non-whitespace character. *)
Definition head_ok (s : string) : bool :=
  match s with
  | EmptyString => true
  | String c _ => negb (is_ws c)
  end.

End JsString.

Import JsString.

(** ** The response cleaner of [analyzeContentWithStatement] *)

Module Cleaner.

(** The double quote character, written out once. *)
Definition dq : string := String "034"%char EmptyString.

Definition fence : string := "```".
Definition fence_json : string := "```json".

(** [s.replace(/^```json\s*/, '')] and [s.replace(/^```\s*/, '')]: the
    pattern is anchored at the start, and [\s*] takes the whole run of
    whitespace that follows the fence. *)
Definition replace_leading_fence (f s : string) : string :=
  if startsWith f s then trimStart (drop (String.length f) s) else s.

(** [s.replace(/\s*```$/, '')]: the leftmost match of [\s*```] ending at the
    end of the string starts at the beginning of the whitespace run that
    precedes the final three backticks. *)
Definition replace_trailing_fence (s : string) : string :=
  if endsWith fence s then trimEnd (substring 0 (String.length s - 3) s) else s.

(** The fence stripping of [analyzeContentWithStatement] (applied to the
    trimmed response). *)
Definition strip_fences (cleanedResponse : string) : string :=
  if startsWith fence_json cleanedResponse then
    replace_trailing_fence (replace_leading_fence fence_json cleanedResponse)
  else if startsWith fence cleanedResponse then
    replace_trailing_fence (replace_leading_fence fence cleanedResponse)
  else cleanedResponse.

Definition summary_key : string := dq ++ "summary" ++ dq ++ ":".
Definition recommendations_key : string := dq ++ "recommendations" ++ dq ++ ":".
Definition closing_brace : string := "}".
Definition quote_brace : string := dq ++ "}".

(** The suffix appended when a summary field was cut off: a closing quote,
    a recommendations field with a fixed text, and a closing brace. *)
Definition recommendations_patch : string :=
  dq ++ ", " ++ dq ++ "recommendations" ++ dq ++ ": " ++ dq ++
  "Please review the detailed analysis above" ++ dq ++ "}".

(** The truncation test: the text ends neither with a brace nor with a
    quote followed by a brace. *)
Definition looks_truncated (c : string) : bool :=
  negb (endsWith closing_brace c) && negb (endsWith quote_brace c).

(** The truncation repair, branch for branch. *)
Definition repair_truncation (cleanedResponse : string) : string :=
  if looks_truncated cleanedResponse then
    if includes summary_key cleanedResponse &&
       negb (includes recommendations_key cleanedResponse)
    then cleanedResponse ++ recommendations_patch
    else if negb (endsWith closing_brace cleanedResponse)
    then cleanedResponse ++ closing_brace
    else cleanedResponse
  else cleanedResponse.

(** The whole clean step: trim, strip fences, repair truncation. *)
Definition clean (analysisText : string) : string :=
  repair_truncation (strip_fences (trim analysisText)).

End Cleaner.

Import Cleaner.

(** ** JSON values and a concrete [JSON.parse]

    The recovery code only sees [JSON.parse] through its result: a value, or
    a thrown [SyntaxError].  The theorems take the parser as a variable; the
    parser below (RFC 8259 grammar, numbers as exact rationals, [\uXXXX]
    escapes limited to code units below 256) is used to run the code on
    concrete replies. *)

Module Json.

Set Warnings "-register-all".

Inductive value : Type :=
| JNull
| JBool (b : bool)
| JNum (q : Q)
| JStr (s : string)
| JArr (xs : list value)
| JObj (fields : list (string * value)).

(** Own-property lookup on a parsed object. *)
Fixpoint get (k : string) (fs : list (string * value)) : option value :=
  match fs with
  | [] => None
  | (k', v) :: r => if String.eqb k k' then Some v else get k r
  end.

(** Property assignment: an existing property keeps its position and gets
    the new value, a new property is appended. *)
Fixpoint set (k : string) (v : value) (fs : list (string * value))
  : list (string * value) :=
  match fs with
  | [] => [(k, v)]
  | (k', v') :: r => if String.eqb k k' then (k, v) :: r else (k', v') :: set k v r
  end.

(** JavaScript truthiness ([!x] is [negb (truthy x)]). *)
Definition truthy (v : value) : bool :=
  match v with
  | JNull => false
  | JBool b => b
  | JNum q => negb (Qeq_bool q 0)
  | JStr s => negb (String.eqb s "")
  | JArr _ | JObj _ => true
  end.

Definition is_json_ws (c : ascii) : bool :=
  let n := nat_of_ascii c in ((n =? 32) || (n =? 9) || (n =? 10) || (n =? 13))%nat.

Fixpoint skip_ws (s : string) : string :=
  match s with
  | String c r => if is_json_ws c then skip_ws r else s
  | EmptyString => EmptyString
  end.

Definition digit_of (c : ascii) : option nat :=
  let n := nat_of_ascii c in
  if ((48 <=? n) && (n <=? 57))%nat then Some (n - 48)%nat else None.

Fixpoint take_digits (s : string) : list nat * string :=
  match s with
  | String c r =>
      match digit_of c with
      | Some d => let (ds, r') := take_digits r in (d :: ds, r')
      | None => ([], s)
      end
  | EmptyString => ([], EmptyString)
  end.

Definition digits_value (ds : list nat) : Z :=
  fold_left (fun acc d => acc * 10 + Z.of_nat d)%Z ds 0%Z.

Definition pow10 (e : Z) : Q :=
  if (0 <=? e)%Z then inject_Z (10 ^ e) else Qinv (inject_Z (10 ^ (- e))).

Definition obind {A B : Type} (o : option A) (f : A -> option B) : option B :=
  match o with Some a => f a | None => None end.

(** [-? int frac? exp?] with at least one digit in each present part and no
    leading zero in a multi-digit integer part. *)
Definition parse_number (s : string) : option (value * string) :=
  let '(neg, s1) :=
    match s with
    | String c r => if Ascii.eqb c "-" then (true, r) else (false, s)
    | EmptyString => (false, s)
    end in
  let '(ip, s2) := take_digits s1 in
  match ip with
  | [] => None
  | d :: rest =>
    if (Nat.eqb d 0 && negb (Nat.eqb (length rest) 0))%bool then None else
    obind
      (match s2 with
       | String c r =>
           if Ascii.eqb c "." then
             match take_digits r with
             | ([], _) => None
             | (fs, r') => Some (fs, r')
             end
           else Some ([], s2)
       | EmptyString => Some ([], s2)
       end) (fun '(fp, s3) =>
    obind
      (match s3 with
       | String c r =>
           if Ascii.eqb c "e" || Ascii.eqb c "E" then
             let '(eneg, r1) :=
               match r with
               | String c' r' =>
                   if Ascii.eqb c' "-" then (true, r')
                   else if Ascii.eqb c' "+" then (false, r') else (false, r)
               | EmptyString => (false, r)
               end in
             match take_digits r1 with
             | ([], _) => None
             | (es, r2) =>
                 let e := digits_value es in
                 Some (if eneg then (- e)%Z else e, r2)
             end
           else Some (0%Z, s3)
       | EmptyString => Some (0%Z, s3)
       end) (fun '(e, s4) =>
    let m := digits_value (ip ++ fp) in
    let m := if neg then (- m)%Z else m in
    Some (JNum (inject_Z m * pow10 (e - Z.of_nat (length fp))%Z), s4)))
  end.

Definition simple_escape (e : ascii) : option ascii :=
  if Ascii.eqb e "034" then Some "034"%char
  else if Ascii.eqb e "\" then Some "\"%char
  else if Ascii.eqb e "/" then Some "/"%char
  else if Ascii.eqb e "b" then Some "008"%char
  else if Ascii.eqb e "f" then Some "012"%char
  else if Ascii.eqb e "n" then Some "010"%char
  else if Ascii.eqb e "r" then Some "013"%char
  else if Ascii.eqb e "t" then Some "009"%char
  else None.

Definition hex_of (c : ascii) : option nat :=
  let n := nat_of_ascii c in
  if ((48 <=? n) && (n <=? 57))%nat then Some (n - 48)%nat
  else if ((97 <=? n) && (n <=? 102))%nat then Some (n - 87)%nat
  else if ((65 <=? n) && (n <=? 70))%nat then Some (n - 55)%nat
  else None.

Definition hex4 (a b c d : ascii) : option nat :=
  obind (hex_of a) (fun x1 => obind (hex_of b) (fun x2 =>
  obind (hex_of c) (fun x3 => obind (hex_of d) (fun x4 =>
  Some (((x1 * 16 + x2) * 16 + x3) * 16 + x4)%nat)))).

Definition cons_char (c : ascii) (o : option (string * string)) :=
  option_map (fun '(t, rest) => (String c t, rest)) o.

(** The characters of a string literal after its opening quote, up to and
    excluding the closing quote. *)
Fixpoint parse_chars (s : string) : option (string * string) :=
  match s with
  | EmptyString => None
  | String c r =>
    if Ascii.eqb c "034" then Some (EmptyString, r)
    else if Ascii.eqb c "\" then
      match r with
      | String e r' =>
          match simple_escape e with
          | Some ch => cons_char ch (parse_chars r')
          | None =>
              if Ascii.eqb e "u" then
                match r' with
                | String h1 (String h2 (String h3 (String h4 r''))) =>
                    match hex4 h1 h2 h3 h4 with
                    | Some n =>
                        if (n <? 256)%nat then cons_char (ascii_of_nat n) (parse_chars r'')
                        else None
                    | None => None
                    end
                | _ => None
                end
              else None
          end
      | EmptyString => None
      end
    else if (nat_of_ascii c <? 32)%nat then None
    else cons_char c (parse_chars r)
  end.

Fixpoint parse_value (n : nat) (s : string) {struct n} : option (value * string) :=
  match n with
  | O => None
  | S n =>
    match skip_ws s with
    | EmptyString => None
    | String c r as s' =>
      if Ascii.eqb c "{" then
        match skip_ws r with
        | String c' r' =>
            if Ascii.eqb c' "}" then Some (JObj [], r')
            else parse_members n (skip_ws r) []
        | EmptyString => None
        end
      else if Ascii.eqb c "[" then
        match skip_ws r with
        | String c' r' =>
            if Ascii.eqb c' "]" then Some (JArr [], r')
            else parse_elements n (skip_ws r) []
        | EmptyString => None
        end
      else if Ascii.eqb c "034" then
        option_map (fun '(t, rest) => (JStr t, rest)) (parse_chars r)
      else if startsWith "true" s' then Some (JBool true, drop 4 s')
      else if startsWith "false" s' then Some (JBool false, drop 5 s')
      else if startsWith "null" s' then Some (JNull, drop 4 s')
      else parse_number s'
    end
  end
with parse_members (n : nat) (s : string) (acc : list (string * value))
  {struct n} : option (value * string) :=
  match n with
  | O => None
  | S n =>
    match skip_ws s with
    | String c r =>
      if Ascii.eqb c "034" then
        match parse_chars r with
        | Some (k, r1) =>
          match skip_ws r1 with
          | String c1 r2 =>
            if Ascii.eqb c1 ":" then
              match parse_value n r2 with
              | Some (v, r3) =>
                let acc := set k v acc in
                match skip_ws r3 with
                | String c3 r4 =>
                  if Ascii.eqb c3 "," then parse_members n r4 acc
                  else if Ascii.eqb c3 "}" then Some (JObj acc, r4)
                  else None
                | EmptyString => None
                end
              | None => None
              end
            else None
          | EmptyString => None
          end
        | None => None
        end
      else None
    | EmptyString => None
    end
  end
with parse_elements (n : nat) (s : string) (acc : list value)
  {struct n} : option (value * string) :=
  match n with
  | O => None
  | S n =>
    match parse_value n s with
    | Some (v, r) =>
      match skip_ws r with
      | String c r' =>
        if Ascii.eqb c "," then parse_elements n r' (acc ++ [v])
        else if Ascii.eqb c "]" then Some (JArr (acc ++ [v]), r')
        else None
      | EmptyString => None
      end
    | None => None
    end
  end.

(** [JSON.parse(text)]: [None] stands for the thrown [SyntaxError].  Every
    nested call consumes at least one character, so the length of the text
    bounds the recursion. *)
Definition parse (text : string) : option value :=
  match parse_value (S (String.length text)) text with
  | Some (v, rest) => if String.eqb (skip_ws rest) "" then Some v else None
  | None => None
  end.

End Json.

(** ** Structured response recovery ([analyzeContent],
    [analyzeContentWithStatement])

    Both methods post a prompt to the generative model (the external
    capability) and validate the reply envelope; what follows is the handling
    of the reply text [analysisText = response.data.choices[0].message.content]
    taken as a string.  An exception raised in the inner steps is caught by the
    method's outer [catch], which throws its own fixed message. *)

Module Recovery.
Import Json.

Inductive outcome : Type :=
| Returned (v : value)
| Raised (message : string).

Section Recover.

(** [JSON.parse]: [None] stands for the thrown [SyntaxError]. *)
Variable JSON_parse : string -> option value.

(** The shape fix-up of [analyzeContentWithStatement]:
    [if (!parsedAnalysis.question_analysis) parsedAnalysis.question_analysis = [];].
    Reading a property of [null] throws a [TypeError]; on a boolean, number
    or string the property is missing and assigning it throws a [TypeError]
    (class bodies are strict-mode code).  [None] stands for the thrown
    error.  On an array the property is added to the array object, which
    JSON serialisation does not show. *)
Definition ensure_question_analysis (parsedAnalysis : value) : option value :=
  match parsedAnalysis with
  | JNull => None
  | JBool _ | JNum _ | JStr _ => None
  | JArr xs => Some (JArr xs)
  | JObj fs =>
      match get "question_analysis" fs with
      | Some qa => if truthy qa then Some (JObj fs)
                   else Some (JObj (set "question_analysis" (JArr []) fs))
      | None => Some (JObj (set "question_analysis" (JArr []) fs))
      end
  end.

(** The structured fallback of [analyzeContentWithStatement]. *)
Definition statement_fallback_fields (analysisText : string)
  : list (string * value) :=
  [("overall_score", JNum 0);
   ("subject", JStr "Unknown");
   ("statement_used", JBool true);
   ("question_analysis", JArr []);
   ("summary", JStr "Analysis completed but formatting issues occurred. Please review manually.");
   ("recommendations", JStr "Please review the analysis manually");
   ("raw_response", JStr analysisText)].

Definition statement_fallback (analysisText : string) : value :=
  JObj (statement_fallback_fields analysisText).

(** [analyzeContentWithStatement] from the reply text on:
    [if (!analysisText) throw new Error('Empty response from AI service')],
    rethrown by the outer catch as
    ['Failed to analyze content with statement context']; then clean, parse,
    fix up the shape, and fall back on any error of the inner [try]. *)
Definition analyzeContentWithStatement (analysisText : string) : outcome :=
  if String.eqb analysisText "" then
    Raised "Failed to analyze content with statement context"
  else
    let cleanedResponse := clean analysisText in
    match JSON_parse cleanedResponse with
    | Some parsedAnalysis =>
        match ensure_question_analysis parsedAnalysis with
        | Some v => Returned v
        | None => Returned (statement_fallback analysisText)
        end
    | None => Returned (statement_fallback analysisText)
    end.

(** The structured fallback of [analyzeContent]. *)
Definition content_fallback_fields (analysisText : string)
  : list (string * value) :=
  [("score", JNum 0);
   ("subject", JStr "Unknown");
   ("errors", JArr []);
   ("corrections", JArr []);
   ("summary", JStr analysisText);
   ("raw_response", JStr analysisText)].

Definition content_fallback (analysisText : string) : value :=
  JObj (content_fallback_fields analysisText).

(** [analyzeContent] from the reply text on: the same empty-reply guard
    (rethrown as ['Failed to analyze content']), then [JSON.parse] of the raw
    text, with the fallback on a parse error. *)
Definition analyzeContent (analysisText : string) : outcome :=
  if String.eqb analysisText "" then Raised "Failed to analyze content"
  else
    match JSON_parse analysisText with
    | Some v => Returned v
    | None => Returned (content_fallback analysisText)
    end.

End Recover.

(** The parse-and-validate stage of [analyzeContentWithStatement] fails on
    the cleaned text: [JSON.parse] throws or the shape fix-up throws. *)
Definition parse_validate_fails (JSON_parse : string -> option value)
  (cleanedResponse : string) : Prop :=
  obind (JSON_parse cleanedResponse) ensure_question_analysis = None.

(** Every number stored in a field of the record is zero. *)
Definition numbers_zero (fs : list (string * value)) : Prop :=
  forall k q, In (k, JNum q) fs -> q == 0.

(** Every list stored in a field of the record is empty. *)
Definition lists_empty (fs : list (string * value)) : Prop :=
  forall k xs, In (k, JArr xs) fs -> xs = [].

(** The record carries a note: a string field other than the subject whose
    text is not the raw reply. *)
Definition has_note (raw : string) (fs : list (string * value)) : Prop :=
  exists k s, In (k, JStr s) fs /\ k <> "subject" /\ s <> raw.

End Recovery.

(** ** Document normalisation ([services/fileProcessor.js]) *)

Module Normaliser.

Inductive result (A : Type) : Type :=
| Ok (a : A)
| Err (message : string).
Arguments Ok {A} a.
Arguments Err {A} message.

(** [String(n)] for a page number. *)
Definition nat_str (n : nat) : string := NilEmpty.string_of_uint (Nat.to_uint n).

(** The template literal of [createTextImage] is written with apostrophes
    in place of its double quotes; [q] puts the double quotes back. *)
Fixpoint q (s : string) : string :=
  match s with
  | EmptyString => EmptyString
  | String c r => String (if Ascii.eqb c "'" then "034"%char else c) (q r)
  end.

(** [s.replace(/[class]/g, '')] *)
Fixpoint remove_chars (drop_it : ascii -> bool) (s : string) : string :=
  match s with
  | EmptyString => EmptyString
  | String c r => if drop_it c then remove_chars drop_it r else String c (remove_chars drop_it r)
  end.

(** [s.replace(/c/g, rep)] for a single character [c]. *)
Fixpoint replace_char (c : ascii) (rep : string) (s : string) : string :=
  match s with
  | EmptyString => EmptyString
  | String d r => if Ascii.eqb c d then rep ++ replace_char c rep r else String d (replace_char c rep r)
  end.

(** [/[\x00-\x08\x0B\x0C\x0E-\x1F\x7F]/g] *)
Definition control_class_1 (c : ascii) : bool :=
  let n := nat_of_ascii c in
  ((n <=? 8) || (n =? 11) || (n =? 12) || ((14 <=? n) && (n <=? 31)) || (n =? 127))%nat.

(** The pattern of the Unicode replacement character U+FFFD, which is not a
    code unit below 256. *)
Definition replacement_char (c : ascii) : bool := false.

(** [/[\u0000-\u0008\u000B-\u000C\u000E-\u001F]/g] *)
Definition control_class_2 (c : ascii) : bool :=
  let n := nat_of_ascii c in
  ((n <=? 8) || ((11 <=? n) && (n <=? 12)) || ((14 <=? n) && (n <=? 31)))%nat.

(** The [sanitizedText] of [createTextImage]. *)
Definition sanitize (text : string) : string :=
  substring 0 3000
    (replace_char "'" "&apos;"
    (replace_char "034" "&quot;"
    (replace_char ">" "&gt;"
    (replace_char "<" "&lt;"
    (replace_char "&" "&amp;"
    (remove_chars control_class_2
    (remove_chars replacement_char
    (remove_chars control_class_1 text)))))))).

Definition width : nat := 1024.
Definition height : nat := 1448.

(** The [svg] template literal of [createTextImage]. *)
Definition text_svg (sanitizedText : string) (pageNum totalPages : nat) : string :=
  q "
            <svg width='" ++ nat_str width ++ q "' height='" ++ nat_str height ++
  q "' xmlns='http://www.w3.org/2000/svg'>
                <rect width='100%' height='100%' fill='white'/>
                <text x='20' y='30' font-family='Arial' font-size='12' fill='#999'>
                    Page " ++ nat_str pageNum ++ " of " ++ nat_str totalPages ++ q "
                </text>
                <foreignObject x='20' y='50' width='" ++ nat_str (width - 40) ++
  q "' height='" ++ nat_str (height - 80) ++ q "'>
                    <div xmlns='http://www.w3.org/1999/xhtml'
                         style='font-family: Arial, sans-serif; font-size: 12px; line-height: 1.6;
                                color: #333; word-wrap: break-word; white-space: pre-wrap;'>
                        " ++ sanitizedText ++ q "
                    </div>
                </foreignObject>
                <text x='20' y='" ++ nat_str (height - 20) ++
  q "' font-family='Arial' font-size='10' fill='#999'>
                    Generated from PDF text extraction
                </text>
            </svg>
        ".

Definition textPerPage : nat := 2000.
Definition placeholder : string := "Empty PDF or could not extract text".

(** [for (let i = 0; i < text.length; i += textPerPage)
       pages.push(text.substring(i, i + textPerPage));]
    The loop runs at most [text.length] times, which is the fuel. *)
Fixpoint split_loop (fuel i : nat) (text : string) : list string :=
  match fuel with
  | O => []
  | S fuel =>
      if (i <? String.length text)%nat
      then substring i textPerPage text :: split_loop fuel (i + textPerPage) text
      else []
  end.

(** The page texts of [processPDFWithTextExtraction], with the placeholder
    pushed when the loop produced none. *)
Definition text_pages (text : string) : list string :=
  match split_loop (String.length text) 0 text with
  | [] => [placeholder]
  | pages => pages
  end.

Section Files.

(** The page and raster-buffer types of the image library. *)
Variables page buffer : Type.

(** [sharp(Buffer.from(svg)).jpeg({ quality: 85 }).toBuffer()];
    [None] when sharp throws. *)
Variable sharp_svg : string -> option page.

(** [sharp(buffer).resize(1024, 1448, inside, withoutEnlargement).jpeg(85)];
    [None] when sharp throws. *)
Variable sharp_page : buffer -> option page.

(** [sharp(imagePath).resize(1024, 1024, inside, withoutEnlargement).jpeg(85)]
    on the uploaded image; [None] when sharp throws. *)
Variable sharp_image : option page.

(** pdf2pic: [None] when the module could not be loaded; otherwise the
    converter [fromPath(pdfPath, options)], which for a page number yields the
    page buffer, or [None] when the call throws or has no buffer. *)
Variable pdf2pic : option (nat -> option buffer).

(** [pdfParse(fs.readFileSync(pdfPath))] followed by [pdfData.text || '']:
    the text, or the message of the error thrown. *)
Variable pdf_parse : result string.

Definition createTextImage (text : string) (pageNum totalPages : nat) : result page :=
  match sharp_svg (text_svg (sanitize text) pageNum totalPages) with
  | Some imageBuffer => Ok imageBuffer
  | None => Err "Failed to create text image"
  end.

(** The state of the [while] loop of [processPDFWithPdf2Pic]. *)
Record loop_state : Type := {
  images : list page;
  pageNum : nat;
  hasMorePages : bool
}.

(** One iteration of the loop body: convert, optimise, push. *)
Definition loop_body (convert : nat -> option buffer) (st : loop_state) : loop_state :=
  match convert (pageNum st) with
  | Some buf =>
      match sharp_page buf with
      | Some optimizedBuffer =>
          {| images := images st ++ [optimizedBuffer];
             pageNum := S (pageNum st); hasMorePages := true |}
      | None => {| images := images st; pageNum := pageNum st; hasMorePages := false |}
      end
  | None => {| images := images st; pageNum := pageNum st; hasMorePages := false |}
  end.

(** [while (hasMorePages && pageNum <= 20) { ... }] *)
Fixpoint run_loop (fuel : nat) (convert : nat -> option buffer) (st : loop_state) : loop_state :=
  match fuel with
  | O => st
  | S fuel =>
      if hasMorePages st && (pageNum st <=? 20)%nat
      then run_loop fuel convert (loop_body convert st)
      else st
  end.

(** Each iteration either stops the loop or raises [pageNum], which starts
    at 1 and is bounded by 20: 21 rounds reach the exit test. *)
Definition processPDFWithPdf2Pic (convert : nat -> option buffer) : result (list page) :=
  let st := run_loop 21 convert {| images := []; pageNum := 1; hasMorePages := true |} in
  match images st with
  | [] => Err "No pages could be converted from PDF using pdf2pic"
  | imgs => Ok imgs
  end.

Fixpoint render_pages (pages : list string) (i total : nat) : result (list page) :=
  match pages with
  | [] => Ok []
  | p :: ps =>
      match createTextImage p (i + 1) total with
      | Err m => Err m
      | Ok imageBuffer =>
          match render_pages ps (S i) total with
          | Ok imgs => Ok (imageBuffer :: imgs)
          | Err m => Err m
          end
      end
  end.

Definition processPDFWithTextExtraction : result (list page) :=
  match pdf_parse with
  | Err m => Err ("Failed to process PDF file: " ++ m)
  | Ok text =>
      let pages := text_pages text in
      match render_pages pages 0 (length pages) with
      | Ok images => Ok images
      | Err m => Err ("Failed to process PDF file: " ++ m)
      end
  end.

(** A run of [processPDF]: whether the text-extraction fallback was
    invoked, and what was returned or thrown. *)
Record pdf_run : Type := {
  fallback_used : bool;
  outcome : result (list page)
}.

Definition processPDF : pdf_run :=
  let fallback := {| fallback_used := true; outcome := processPDFWithTextExtraction |} in
  match pdf2pic with
  | Some convert =>
      match processPDFWithPdf2Pic convert with
      | Ok imgs => {| fallback_used := false; outcome := Ok imgs |}
      | Err _ => fallback
      end
  | None => fallback
  end.

Definition processImage : result (list page) :=
  match sharp_image with
  | Some imageBuffer => Ok [imageBuffer]
  | None => Err "Failed to process image file"
  end.

(** [processFile], given the lower-cased extension of the original name. *)
Definition processFile (fileExtension : string) : result (list page) :=
  if String.eqb fileExtension ".pdf" then outcome processPDF
  else if existsb (String.eqb fileExtension) [".jpg"; ".jpeg"; ".png"] then processImage
  else Err ("Unsupported file type: " ++ fileExtension).

(** The tier-1 step for one page: conversion, then optimisation. *)
Definition tier1_page (convert : nat -> option buffer) (n : nat) : option page :=
  match convert n with
  | Some buf => sharp_page buf
  | None => None
  end.

End Files.

Arguments createTextImage {page} sharp_svg text pageNum totalPages.
Arguments processPDFWithPdf2Pic {page buffer} sharp_page convert.
Arguments processPDFWithTextExtraction {page} sharp_svg pdf_parse.
Arguments processPDF {page buffer} sharp_svg sharp_page pdf2pic pdf_parse.
Arguments processImage {page} sharp_image.
Arguments processFile {page buffer} sharp_svg sharp_page sharp_image pdf2pic pdf_parse fileExtension.
Arguments tier1_page {page buffer} sharp_page convert n.
Arguments render_pages {page} sharp_svg pages i total.
Arguments run_loop {page buffer} sharp_page fuel convert st.
Arguments loop_body {page buffer} sharp_page convert st.
Arguments images {page} _.
Arguments pageNum {page} _.
Arguments hasMorePages {page} _.
Arguments Build_loop_state {page} _ _ _.
Arguments fallback_used {page} _.
Arguments outcome {page} _.
Arguments Build_pdf_run {page} _ _.

End Normaliser.

(** ** The AI service around the reply handling (the second unnamed source
    part: [extractContent], [analyzeExam], [analyzeExamWithStatement],
    [generateQuiz]) *)

Module AIService.
Import Json Normaliser Recovery.

(** What a chat-completions request yields to the code: the request is
    rejected ([axios.post] throws, with its message), the reply fails the
    structure check on [response.data.choices[0].message], or the message
    content, where [""] stands for every falsy content (empty, [null],
    missing). *)
Inductive chat_reply : Type :=
| RequestFailed (message : string)
| Malformed
| Content (content : string).

(** [extractContent]: every error of its body is replaced by one message. *)
Definition extractContent (reply : chat_reply) : result string :=
  match reply with
  | Content extractedContent =>
      if String.eqb extractedContent "" then Err "Failed to extract content from images"
      else Ok extractedContent
  | _ => Err "Failed to extract content from images"
  end.

(** Reading a named property of a parsed value other than [null]: the
    properties read here ([questions], [id], [type], [question], [options],
    [correctAnswer]) exist only as own properties of objects; on arrays,
    strings, numbers and booleans they are [undefined] ([None]). *)
Definition member (v : value) (k : string) : option value :=
  match v with
  | JObj fs => get k fs
  | _ => None
  end.

(** [!!x] for a property read that may be [undefined]. *)
Definition truthy_member (o : option value) : bool :=
  match o with Some v => truthy v | None => false end.

(** [x || d] for a property read that may be [undefined]. *)
Definition js_or (o : option value) (d : value) : value :=
  match o with
  | Some v => if truthy v then v else d
  | None => d
  end.

(** A validated quiz question, the object literal built by [generateQuiz]:
    [{ id: q.id || index + 1, type: q.type, question: q.question,
       options: q.options || null, correctAnswer: q.correctAnswer }];
    the plain reads keep [undefined] as [None]. *)
Record quiz_question : Type := {
  id : value;
  type : option value;
  question : option value;
  options : value;
  correctAnswer : option value
}.

(** [q.type === 'multiple_choice'] *)
Definition is_multiple_choice (o : option value) : bool :=
  match o with Some (JStr s) => String.eqb s "multiple_choice" | _ => false end.

(** [!(!q.options || !Array.isArray(q.options) || q.options.length < 2)] *)
Definition has_options (o : option value) : bool :=
  match o with Some (JArr xs) => (2 <=? length xs)%nat | _ => false end.

(** What the checks of [generateQuiz] guarantee of a returned question:
    [type], [question] and [correctAnswer] are present and truthy, the id is
    truthy, and a multiple-choice question has an options array of at least
    two entries. *)
Definition valid_question (q : quiz_question) : Prop :=
  truthy_member (type q) = true /\ truthy_member (question q) = true /\
  truthy_member (correctAnswer q) = true /\ truthy (id q) = true /\
  (is_multiple_choice (type q) = true -> exists xs, options q = JArr xs /\ (2 <= length xs)%nat).

Section Quiz.

(** [JSON.parse]: [None] stands for the thrown [SyntaxError]. *)
Variable JSON_parse : string -> option value.
(** The message of the [SyntaxError] thrown by [JSON.parse] on a text. *)
Variable syntax_error_message : string -> string.
(** The message of the [TypeError] thrown when reading the named property
    of [null]. *)
Variable null_read_message : string -> string.

(** The body of the [map] callback of [generateQuiz] on [q] at [index]. *)
Definition validate_question (index : nat) (q : value) : result quiz_question :=
  match q with
  | JNull => Err (null_read_message "type")
  | _ =>
      if negb (truthy_member (member q "type")) || negb (truthy_member (member q "question"))
         || negb (truthy_member (member q "correctAnswer"))
      then Err ("Invalid question at index " ++ nat_str index ++ ": missing required fields")
      else if is_multiple_choice (member q "type") && negb (has_options (member q "options"))
      then Err ("Invalid multiple choice question at index " ++ nat_str index ++
                ": insufficient options")
      else Ok {| id := js_or (member q "id") (JNum (inject_Z (Z.of_nat (index + 1))));
                 type := member q "type";
                 question := member q "question";
                 options := js_or (member q "options") JNull;
                 correctAnswer := member q "correctAnswer" |}
  end.

(** [quizData.questions.map(...)] from [index] on: the first throwing
    callback ends the map. *)
Fixpoint validate_from (index : nat) (qs : list value) : result (list quiz_question) :=
  match qs with
  | [] => Ok []
  | q :: rest =>
      match validate_question index q with
      | Err m => Err m
      | Ok v =>
          match validate_from (S index) rest with
          | Ok vs => Ok (v :: vs)
          | Err m => Err m
          end
      end
  end.

(** The checks of [generateQuiz] on the parsed reply. *)
Definition quiz_from_data (quizData : value) : result (list quiz_question) :=
  match quizData with
  | JNull => Err (null_read_message "questions")
  | _ =>
      match member quizData "questions" with
      | Some (JArr qs) => validate_from 0 qs
      | _ => Err "Invalid quiz format: missing questions array"
      end
  end.

(** [generateQuiz] from the reply on; the inner [catch] prefixes
    ['Failed to parse quiz response: '], the outer one
    ['Quiz generation failed: ']. *)
Definition generateQuiz (reply : chat_reply) : result (list quiz_question) :=
  match reply with
  | RequestFailed m => Err ("Quiz generation failed: " ++ m)
  | Malformed => Err ("Quiz generation failed: " ++ "Invalid response structure from AI service")
  | Content quizText =>
      if String.eqb quizText "" then
        Err ("Quiz generation failed: " ++ "Empty response from AI service")
      else
        let cleanedResponse := strip_fences (trim quizText) in
        match JSON_parse cleanedResponse with
        | None =>
            Err ("Quiz generation failed: " ++
                 ("Failed to parse quiz response: " ++ syntax_error_message cleanedResponse))
        | Some quizData =>
            match quiz_from_data quizData with
            | Ok validatedQuestions => Ok validatedQuestions
            | Err m => Err ("Quiz generation failed: " ++ ("Failed to parse quiz response: " ++ m))
            end
        end
  end.

End Quiz.

Section Exam.

Variable JSON_parse : string -> option value.
(** [new Date().toISOString()] at the time of the call. *)
Variable timestamp : string.

(** [analyzeContent] with its request: a rejected request or a malformed
    reply is rethrown as ['Failed to analyze content']. *)
Definition analyzeContent_reply (reply : chat_reply) : outcome :=
  match reply with
  | Content analysisText => analyzeContent JSON_parse analysisText
  | _ => Raised "Failed to analyze content"
  end.

Definition analyzeContentWithStatement_reply (reply : chat_reply) : outcome :=
  match reply with
  | Content analysisText => analyzeContentWithStatement JSON_parse analysisText
  | _ => Raised "Failed to analyze content with statement context"
  end.

(** [analyzeExam]: the vision request, then the analysis request, whose
    reply depends on the extracted content (it is part of the prompt). *)
Definition analyzeExam (filename : string) (vision : chat_reply)
  (analysis : string -> chat_reply) : outcome :=
  match extractContent vision with
  | Err m => Raised ("AI analysis failed: " ++ m)
  | Ok extractedContent =>
      match analyzeContent_reply (analysis extractedContent) with
      | Raised m => Raised ("AI analysis failed: " ++ m)
      | Returned a =>
          Returned (JObj [("filename", JStr filename);
                          ("extractedContent", JStr extractedContent);
                          ("analysis", a);
                          ("timestamp", JStr timestamp)])
      end
  end.

Definition analyzeExamWithStatement (filename : string) (vision : chat_reply)
  (analysis : string -> chat_reply) : outcome :=
  match extractContent vision with
  | Err m => Raised ("Enhanced analysis failed: " ++ m)
  | Ok studentContent =>
      match analyzeContentWithStatement_reply (analysis studentContent) with
      | Raised m => Raised ("Enhanced analysis failed: " ++ m)
      | Returned a =>
          Returned (JObj [("filename", JStr filename);
                          ("extractedContent", JStr studentContent);
                          ("analysis", a);
                          ("statement_used", JBool true);
                          ("timestamp", JStr timestamp)])
      end
  end.

End Exam.

End AIService.

(** ** The quiz service (the first unnamed source part), the store of
    generated quizzes and the grading of submitted answers *)

Module QuizService.
Import Json Normaliser AIService.

(** [s.toLowerCase()] on code units below 256: the Latin letters [A-Z] and
    the Latin-1 capitals U+00C0..U+00DE except U+00D7 move down by 32. *)
Definition lower_char (c : ascii) : ascii :=
  let n := nat_of_ascii c in
  if ((65 <=? n) && (n <=? 90) || (192 <=? n) && (n <=? 222) && negb (n =? 215))%nat
  then ascii_of_nat (n + 32) else c.

Fixpoint toLowerCase (s : string) : string :=
  match s with
  | EmptyString => EmptyString
  | String c r => String (lower_char c) (toLowerCase r)
  end.

(** A JavaScript [Map] with string keys: its entries in insertion order;
    [set] on a present key replaces the value in place, on a new key
    appends the entry. *)
Fixpoint map_get {V : Type} (k : string) (m : list (string * V)) : option V :=
  match m with
  | [] => None
  | (k', v) :: r => if String.eqb k k' then Some v else map_get k r
  end.

Fixpoint map_set {V : Type} (k : string) (v : V) (m : list (string * V))
  : list (string * V) :=
  match m with
  | [] => [(k, v)]
  | (k', v') :: r => if String.eqb k k' then (k, v) :: r else (k', v') :: map_set k v r
  end.

(** Every code unit of the string is JavaScript whitespace. *)
Fixpoint all_ws (s : string) : bool :=
  match s with
  | EmptyString => true
  | String c r => is_ws c && all_ws r
  end.

Record course_data : Type := {
  course_id : string;
  content : string;
  filename : string;
  course_timestamp : string
}.

Record quiz_data : Type := {
  quiz_id : string;
  courseId : string;
  questions : list quiz_question;
  quiz_timestamp : string
}.

(** An entry of [detailedResults]. *)
Record detailed_result : Type := {
  questionId : value;
  result_question : option value;
  result_type : option value;
  userAnswer : option value;
  result_correctAnswer : option value;
  isCorrect : bool;
  result_options : value
}.

(** The result record of [storeResult]; [percentage] is
    [Math.round((correctCount / n) * 100)], [None] for [NaN]. *)
Record quiz_result : Type := {
  result_quizId : string;
  score : nat;
  totalQuestions : nat;
  percentage : option Z;
  answers : value;
  detailedResults : list detailed_result;
  correctCount : nat;
  incorrectCount : nat;
  result_timestamp : string
}.

(** The three maps of the service instance. *)
Record quiz_state : Type := {
  quizzes : list (string * quiz_data);
  results : list (string * list quiz_result);
  courseContents : list (string * course_data)
}.

Definition empty_quiz_state : quiz_state :=
  {| quizzes := []; results := []; courseContents := [] |}.

Record quiz_stats : Type := {
  totalCourses : nat;
  totalQuizzes : nat;
  totalResults : nat
}.

Section Service.

(** [String(x)] of a number (the ECMAScript Number::toString). *)
Variable number_to_string : Q -> string.
(** [Math.round((c / n) * 100)] in double arithmetic, [None] for [NaN]. *)
Variable round_percentage : nat -> nat -> option Z.
(** [new Date().toISOString()] at the time of the call. *)
Variable timestamp : string.
(** The message of the [TypeError] thrown when reading the property [k] of
    [null]. *)
Variable read_null_message : value -> string.

(** The message of the [TypeError] thrown by [String(o)] when no method
    of [o] converts it to a primitive. *)
Definition convert_message : string := "Cannot convert object to primitive value".

(** [String(x)] of a JSON value; [None] when it throws. An array is joined
    with commas, its [null] elements printing as the empty string. An object
    prints as '[object Object]' through [Object.prototype.toString], unless
    it has an own [toString] property: a parsed value is never callable, so
    [toString] is skipped, [valueOf] (own, or the inherited one, which
    returns the object itself) gives no primitive, and [String] throws. *)
Fixpoint js_String (v : value) : option string :=
  match v with
  | JNull => Some "null"
  | JBool true => Some "true"
  | JBool false => Some "false"
  | JNum q => Some (number_to_string q)
  | JStr s => Some s
  | JArr xs =>
      (fix join (xs : list value) : option string :=
         match xs with
         | [] => Some ""
         | x :: r =>
             match match x with JNull => Some "" | _ => js_String x end with
             | None => None
             | Some e =>
                 match r with
                 | [] => Some e
                 | _ => match join r with
                        | Some j => Some (e ++ "," ++ j)
                        | None => None
                        end
                 end
             end
         end) xs
  | JObj fs =>
      match get "toString" fs with
      | Some _ => None
      | None => Some "[object Object]"
      end
  end.

(** [String(x)] where [x] may be [undefined]. *)
Definition js_String_opt (o : option value) : option string :=
  match o with Some v => js_String v | None => Some "undefined" end.

Definition storeCourseContent (courseId : string) (content : string) (filename : string)
  (st : quiz_state) : course_data * quiz_state :=
  let courseData := {| course_id := courseId; content := content; filename := filename;
                       course_timestamp := timestamp |} in
  (courseData, {| quizzes := quizzes st; results := results st;
                  courseContents := map_set courseId courseData (courseContents st) |}).

(** [this.courseContents.get(courseId) || null]: the stored objects are
    truthy. *)
Definition getCourseContent (courseId : string) (st : quiz_state) : option course_data :=
  map_get courseId (courseContents st).

Definition storeQuiz (quizId courseId : string) (questions : list quiz_question)
  (st : quiz_state) : quiz_data * quiz_state :=
  let quizData := {| quiz_id := quizId; courseId := courseId; questions := questions;
                     quiz_timestamp := timestamp |} in
  (quizData, {| quizzes := map_set quizId quizData (quizzes st); results := results st;
                courseContents := courseContents st |}).

Definition getQuiz (quizId : string) (st : quiz_state) : option quiz_data :=
  map_get quizId (quizzes st).

(** [checkAnswer(question, userAnswer)]; [Err] when [String] throws, on
    the user's answer first. *)
Definition checkAnswer (q : quiz_question) (userAnswer : option value) : result bool :=
  match userAnswer with
  | None => Ok false
  | Some u =>
      if negb (truthy u) then Ok false
      else
        match js_String u with
        | None => Err convert_message
        | Some a =>
            match js_String_opt (correctAnswer q) with
            | None => Err convert_message
            | Some c => Ok (String.eqb (trim (toLowerCase a)) (trim (toLowerCase c)))
            end
        end
  end.

(** [answers[question.id]]: reading a property of [null] throws; on any
    other value the key is converted to a property key with [String]
    semantics, which may throw, and [answerOf] is the property read (own or
    inherited property, [None] for [undefined]). *)
Definition read_answer (answerOf : value -> option value) (answers : value) (key : value)
  : result (option value) :=
  match answers with
  | JNull => Err (read_null_message key)
  | _ =>
      match js_String key with
      | None => Err convert_message
      | Some _ => Ok (answerOf key)
      end
  end.

(** One step of the [forEach] of [storeResult]. *)
Definition grade (answerOf : value -> option value) (answers : value) (q : quiz_question)
  : result detailed_result :=
  match read_answer answerOf answers (id q) with
  | Err m => Err m
  | Ok userAnswer =>
      match checkAnswer q userAnswer with
      | Err m => Err m
      | Ok isCorrect =>
          Ok {| questionId := id q;
                result_question := question q;
                result_type := type q;
                userAnswer := userAnswer;
                result_correctAnswer := correctAnswer q;
                isCorrect := isCorrect;
                result_options := if truthy (options q) then options q else JNull |}
      end
  end.

(** The [forEach] over the questions: an error thrown by one step ends the
    loop and leaves [storeResult]. *)
Fixpoint grade_all (answerOf : value -> option value) (answers : value)
  (qs : list quiz_question) : result (list detailed_result) :=
  match qs with
  | [] => Ok []
  | q :: r =>
      match grade answerOf answers q with
      | Err m => Err m
      | Ok d =>
          match grade_all answerOf answers r with
          | Err m => Err m
          | Ok ds => Ok (d :: ds)
          end
      end
  end.

(** [correctCount] after the [forEach]. *)
Definition count_correct (ds : list detailed_result) : nat :=
  fold_left (fun n d => if isCorrect d then S n else n) ds 0.

Definition getQuizResults (quizId : string) (st : quiz_state) : list quiz_result :=
  match map_get quizId (results st) with Some rs => rs | None => [] end.

(** [storeResult(quizId, answers)] *)
Definition storeResult (quizId : string) (answers : value)
  (answerOf : value -> option value) (st : quiz_state)
  : result (quiz_result * quiz_state) :=
  match getQuiz quizId st with
  | None => Err "Quiz not found"
  | Some quiz =>
      match grade_all answerOf answers (questions quiz) with
      | Err m => Err m
      | Ok detailed =>
          let correct := count_correct detailed in
          let n := length (questions quiz) in
          let r := {| result_quizId := quizId; score := correct; totalQuestions := n;
                      percentage := round_percentage correct n; answers := answers;
                      detailedResults := detailed; correctCount := correct;
                      incorrectCount := n - correct; result_timestamp := timestamp |} in
          Ok (r, {| quizzes := quizzes st;
                    results := map_set quizId (getQuizResults quizId st ++ [r])%list
                                 (results st);
                    courseContents := courseContents st |})
      end
  end.

Definition getStats (st : quiz_state) : quiz_stats :=
  {| totalCourses := length (courseContents st);
     totalQuizzes := length (quizzes st);
     totalResults := fold_left (fun sum e => sum + length (snd e)) (results st) 0 |}.

Definition clearAll (st : quiz_state) : quiz_state := empty_quiz_state.

End Service.

(** The total length of the lists stored in a map of lists. *)
Definition sizes {V : Type} (m : list (string * list V)) : nat :=
  list_sum (map (fun e => length (snd e)) m).

End QuizService.

(** ** The quiz route of the server ([POST /api/quiz/generate]): the
    questions sent to the client *)

Module Server.
Import Json AIService.

(** [{ id: q.id, type: q.type, question: q.question, options: q.options }]
    as serialised by [res.json]: an [undefined] property is left out. *)
Definition client_question (q : quiz_question) : value :=
  JObj ([("id", id q)] ++
        match type q with Some v => [("type", v)] | None => [] end ++
        match question q with Some v => [("question", v)] | None => [] end ++
        [("options", options q)])%list.

Definition client_questions (qs : list quiz_question) : list value :=
  map client_question qs.

End Server.

(** ** The statement service (the third unnamed source part, from
    [class StatementService] on): statement documents, their extracted
    questions, and the active statement *)

Module StatementService.
Import Json Normaliser AIService QuizService.

Record statement : Type := {
  statement_id : string;
  statement_filename : string;
  originalPath : string;
  statement_content : value;
  statement_questions : value;
  statement_timestamp : string;
  processed : bool
}.

(** The fields of the service instance: the two maps, the active
    statement ([None] for [null]) and the id counter. *)
Record statement_state : Type := {
  documents : list (string * statement);
  questionCache : list (string * value);
  activeStatement : option string;
  idCounter : nat
}.

Definition initial_statement_state : statement_state :=
  {| documents := []; questionCache := []; activeStatement := None; idCounter := 1 |}.

(** [Map.prototype.delete] *)
Definition map_delete {V : Type} (k : string) (m : list (string * V)) : list (string * V) :=
  filter (fun e => negb (String.eqb k (fst e))) m.

(** [processStatement(file)] with [Date.now()] as [now_ms] and
    [new Date().toISOString()] as [timestamp]. *)
Definition processStatement (originalname path : string) (now_ms : nat) (timestamp : string)
  (st : statement_state) : statement * statement_state :=
  let statementId := "stmt_" ++ nat_str (idCounter st) ++ "_" ++ nat_str now_ms in
  let statementData := {| statement_id := statementId; statement_filename := originalname;
                          originalPath := path; statement_content := JNull;
                          statement_questions := JArr []; statement_timestamp := timestamp;
                          processed := false |} in
  (statementData,
   {| documents := map_set statementId statementData (documents st);
      questionCache := questionCache st; activeStatement := activeStatement st;
      idCounter := S (idCounter st) |}).

Section Service.

(** [JSON.parse]: [None] stands for the thrown [SyntaxError]. *)
Variable JSON_parse : string -> option value.
(** The message of the [TypeError] thrown when reading the named property
    of [null]. *)
Variable null_read_message : string -> string.

(** [parseQuestionsFromContent]: every error is caught and gives [[]]; so
    does a parsed [null] (reading [questions] of it throws). *)
Definition parseQuestionsFromContent (reply : chat_reply) : value :=
  match reply with
  | Content analysisText =>
      let cleanedResponse := strip_fences (trim analysisText) in
      match JSON_parse cleanedResponse with
      | None => JArr []
      | Some JNull => JArr []
      | Some parsedQuestions => js_or (member parsedQuestions "questions") (JArr [])
      end
  | _ => JArr []
  end.

(** [extractQuestions(statementId, images)]: the vision reply, then the
    question extraction reply, whose prompt holds the extracted content.
    The statement object is shared with the [documents] map, so its update
    is an update of the map entry. *)
Definition extractQuestions (statementId : string) (vision : chat_reply)
  (questions_reply : string -> chat_reply) (st : statement_state)
  : result (value * statement_state) :=
  match map_get statementId (documents st) with
  | None => Err ("Failed to extract questions: " ++ "Statement document not found")
  | Some s =>
      match extractContent vision with
      | Err m => Err ("Failed to extract questions: " ++ m)
      | Ok extractedContent =>
          let qs := parseQuestionsFromContent (questions_reply extractedContent) in
          let s' := {| statement_id := statement_id s;
                       statement_filename := statement_filename s;
                       originalPath := originalPath s;
                       statement_content := JStr extractedContent;
                       statement_questions := qs;
                       statement_timestamp := statement_timestamp s;
                       processed := true |} in
          Ok (qs, {| documents := map_set statementId s' (documents st);
                     questionCache := map_set statementId qs (questionCache st);
                     activeStatement := activeStatement st;
                     idCounter := idCounter st |})
      end
  end.

(** [x.length] on a value other than [null]. *)
Definition js_length (v : value) : option value :=
  match v with
  | JArr xs => Some (JNum (inject_Z (Z.of_nat (length xs))))
  | JStr s => Some (JNum (inject_Z (Z.of_nat (String.length s))))
  | JObj fs => get "length" fs
  | _ => None
  end.

(** [selectStatement(statementId)]; the summary object leaves out an
    [undefined] count, as [res.json] does. On [null] questions the read of
    [length] throws after [activeStatement] was set; the error returned
    here drops that update. No state the service reaches stores [null]
    questions ([statement_inv]). *)
Definition selectStatement (statementId : string) (st : statement_state)
  : result (value * statement_state) :=
  match map_get statementId (documents st) with
  | None => Err "Statement document not found"
  | Some s =>
      match statement_questions s with
      | JNull => Err (null_read_message "length")
      | qs =>
          Ok (JObj ([("id", JStr (statement_id s)); ("filename", JStr (statement_filename s))] ++
                    match js_length qs with Some n => [("questions_count", n)] | None => [] end ++
                    [("processed", JBool (processed s))])%list,
              {| documents := documents st; questionCache := questionCache st;
                 activeStatement := Some statementId; idCounter := idCounter st |})
      end
  end.

End Service.

(** [getActiveStatement()]: an empty id is falsy. *)
Definition getActiveStatement (st : statement_state) : option statement :=
  match activeStatement st with
  | None => None
  | Some a => if String.eqb a "" then None else map_get a (documents st)
  end.

(** [getQuestions(statementId)]: the cache first, then the document. *)
Definition getQuestions (statementId : string) (st : statement_state) : value :=
  match map_get statementId (questionCache st) with
  | Some qs => qs
  | None =>
      match map_get statementId (documents st) with
      | Some s => statement_questions s
      | None => JArr []
      end
  end.

(** [removeStatement(statementId)] on a file system given by the list of
    existing paths; [unlink_ok p] tells whether [fs.unlinkSync(p)] succeeds
    (it may throw on an existing file); a thrown error is caught and gives
    [false] with nothing removed. *)
Definition removeStatement (unlink_ok : string -> bool) (statementId : string)
  (files : list string) (st : statement_state) : bool * statement_state * list string :=
  match map_get statementId (documents st) with
  | None => (false, st, files)
  | Some s =>
      let p := originalPath s in
      let remove_entry files' :=
        (true, {| documents := map_delete statementId (documents st);
                  questionCache := map_delete statementId (questionCache st);
                  activeStatement :=
                    match activeStatement st with
                    | Some a => if String.eqb a statementId then None else Some a
                    | None => None
                    end;
                  idCounter := idCounter st |}, files') in
      if negb (String.eqb p "") && existsb (String.eqb p) files then
        if unlink_ok p then remove_entry (filter (fun f => negb (String.eqb p f)) files)
        else (false, st, files)
      else remove_entry files
  end.

(** [cleanup()]: the file of every stored statement is unlinked when it
    exists (a failing unlink is only logged), then the instance is reset. *)
Definition cleanup (unlink_ok : string -> bool) (files : list string) (st : statement_state)
  : statement_state * list string :=
  (initial_statement_state,
   fold_left (fun fs e =>
                let p := originalPath (snd e) in
                if negb (String.eqb p "") && existsb (String.eqb p) fs then
                  if unlink_ok p then filter (fun f => negb (String.eqb p f)) fs else fs
                else fs)
             (documents st) files).

(** The states the singleton reaches from its construction through the
    calls of its methods that return normally. *)
Inductive reachable (JSON_parse : string -> option value) (unlink_ok : string -> bool)
  : statement_state -> Prop :=
| reachable_initial : reachable JSON_parse unlink_ok initial_statement_state
| reachable_process originalname path now_ms timestamp st :
    reachable JSON_parse unlink_ok st ->
    reachable JSON_parse unlink_ok (snd (processStatement originalname path now_ms timestamp st))
| reachable_extract statementId vision questions_reply st qs st' :
    reachable JSON_parse unlink_ok st ->
    extractQuestions JSON_parse statementId vision questions_reply st = Ok (qs, st') ->
    reachable JSON_parse unlink_ok st'
| reachable_select null_read_message statementId st v st' :
    reachable JSON_parse unlink_ok st ->
    selectStatement null_read_message statementId st = Ok (v, st') ->
    reachable JSON_parse unlink_ok st'
| reachable_remove statementId files st b st' files' :
    reachable JSON_parse unlink_ok st ->
    removeStatement unlink_ok statementId files st = (b, st', files') ->
    reachable JSON_parse unlink_ok st'
| reachable_cleanup files st :
    reachable JSON_parse unlink_ok st ->
    reachable JSON_parse unlink_ok (fst (cleanup unlink_ok files st)).

(** An id made by [processStatement] with a counter below the current one. *)
Definition issued_key (st : statement_state) (key : string) : Prop :=
  exists k t, key = ("stmt_" ++ nat_str k ++ "_" ++ nat_str t)%string /\ k < idCounter st.

(** What holds of every reachable state: each stored statement has truthy
    [questions], and every key of both maps is an issued id. *)
Definition statement_inv (st : statement_state) : Prop :=
  Forall (fun e => truthy (statement_questions (snd e)) = true /\ issued_key st (fst e))
         (documents st) /\
  Forall (fun e => issued_key st (fst e)) (questionCache st).

End StatementService.

(** ** Two routes of the server: [POST /api/quiz/submit] and
    [DELETE /api/statement/:id] *)

Module Routes.
Import Json Normaliser AIService QuizService StatementService.









End Routes.

(** ** Concrete inputs *)

Module Inputs.

Fixpoint repeat_char (n : nat) (c : ascii) : string :=
  match n with
  | O => EmptyString
  | S n => String c (repeat_char n c)
  end.

(** The text of a PDF of about twenty dense pages: 40001 characters. *)
Definition long_text : string := repeat_char (20 * 2000 + 1)%nat "a".

(** A rasteriser that accepts every SVG document; its page is the
    document itself. *)
Definition svg_as_page (svg : string) : option string := Some svg.







(** A PDF whose first three pages convert. *)
Definition three_page_pdf (n : nat) : option nat :=
  if ((1 <=? n) && (n <=? 3))%nat then Some n else None.

End Inputs.

(** ** Concrete inputs of the services *)

Module ServiceInputs.
Import Json AIService.

(** Engine messages for the runs. *)
Definition syntax_msg (text : string) : string := "Unexpected token in JSON".
Definition null_msg (k : string) : string :=
  "Cannot read properties of null (reading '" ++ k ++ "')".

(** A model reply with one true/false question. *)
Definition sample_quiz_reply : chat_reply :=
  Content (Normaliser.q
    "{'questions': [{'type': 'true_false', 'question': 'Is 2 > 1?', 'correctAnswer': 'true'}]}").

Definition sample_quiz : list quiz_question :=
  [{| id := JNum (inject_Z 1); type := Some (JStr "true_false");
      question := Some (JStr "Is 2 > 1?"); options := JNull;
      correctAnswer := Some (JStr "true") |}].

(** A model reply whose second question has no text. *)
Definition broken_quiz_text : string :=
  Normaliser.q
    "{'questions': [{'type': 'true_false', 'question': 'Is 2 > 1?', 'correctAnswer': 'true'}, {'type': 'true_false', 'correctAnswer': 'false'}]}".

(** The quiz service after [storeQuiz('quiz_1', 'course_1', sample_quiz)]. *)
Definition sample_state : QuizService.quiz_state :=
  snd (QuizService.storeQuiz "2026-01-01T00:00:00.000Z" "quiz_1" "course_1" sample_quiz
         QuizService.empty_quiz_state).

(** The submitted answers [{ 1: ' True ' }] read at a question id. *)
Definition sample_answerOf (k : value) : option value :=
  match k with
  | JNum n => if Qeq_bool n 1 then Some (JStr " True ") else None
  | _ => None
  end.

(** The engine message for a property read on [null]. *)
Definition read_null_msg (k : value) : string := "Cannot read properties of null".


(** The first question of a list (a question with no fields when empty). *)
Definition hd_quiz (qs : list quiz_question) : quiz_question :=
  hd {| id := JNull; type := None; question := None; options := JNull;
        correctAnswer := None |} qs.

(** [processStatement] of an uploaded [exam.pdf] on the fresh instance, at
    [Date.now()] = 5000. *)
Definition upload : StatementService.statement * StatementService.statement_state :=
  StatementService.processStatement "exam.pdf" "uploads/exam.pdf" 5000
    "2026-01-01T00:00:00.000Z" StatementService.initial_statement_state.

End ServiceInputs.

(** ** Loop states *)

Module LoopStates.
Import Normaliser.

(** The invariant of the tier-1 loop: one image per page already read,
    and the page counter never beyond 21. *)
Definition loop_inv {page : Type} (st : loop_state page) : Prop :=
  (length (images st) + 1 = pageNum st /\ pageNum st <= 21)%nat.

(** The state after pages 1..j have been converted. *)
Definition prefix_state {page : Type} (pg : nat -> page) (j : nat) : loop_state page :=
  {| images := map pg (seq 1 j); pageNum := S j; hasMorePages := true |}.

End LoopStates.

(** * Concrete runs *)

Example clean_fenced :
  clean ("```json" ++ String "010"%char "{}" ++ String "010"%char "```") = "{}".
Proof. reflexivity. Qed.

Example clean_empty : clean "   " = "}".
Proof. reflexivity. Qed.

Example clean_summary :
  clean ("{" ++ summary_key ++ " " ++ dq ++ "Good") =
  "{" ++ summary_key ++ " " ++ dq ++ "Good" ++ recommendations_patch.
Proof. reflexivity. Qed.

(** ** Facts about the string primitives *)

Module StringFacts.

Lemma length_app (p q : string) :
  String.length (p ++ q) = String.length p + String.length q.
Proof. induction p as [|a p IH]; simpl; auto. Qed.

Lemma app_nil_r (p : string) : p ++ "" = p.
Proof. induction p as [|a p IH]; simpl; congruence. Qed.

Lemma app_assoc (p q r : string) : p ++ (q ++ r) = (p ++ q) ++ r.
Proof. induction p as [|a p IH]; simpl; congruence. Qed.

Lemma substring_app_r (p q : string) (k : nat) :
  substring (String.length p) k (p ++ q) = substring 0 k q.
Proof. induction p as [|a p IH]; simpl; auto. Qed.

Lemma substring_0_full (q : string) : substring 0 (String.length q) q = q.
Proof. induction q as [|a q IH]; simpl; congruence. Qed.

Lemma substring_split (s : string) (k : nat) :
  k <= String.length s ->
  s = substring 0 k s ++ substring k (String.length s - k) s.
Proof.
  revert k; induction s as [|a s IH]; intros k Hk; simpl in *.
  - destruct k; reflexivity.
  - destruct k as [|k]; simpl.
    + rewrite substring_0_full. reflexivity.
    + f_equal. apply IH. lia.
Qed.

Lemma endsWith_app (p suf : string) : endsWith suf (p ++ suf) = true.
Proof.
  unfold endsWith. rewrite length_app.
  replace (String.length p + String.length suf - String.length suf)
    with (String.length p) by lia.
  rewrite substring_app_r, substring_0_full, String.eqb_refl.
  apply andb_true_intro; split; [apply Nat.leb_le; lia | reflexivity].
Qed.

Lemma endsWith_spec (suf s : string) :
  endsWith suf s = true -> exists p, s = p ++ suf.
Proof.
  unfold endsWith. intros H.
  apply andb_prop in H as [Hle Heq].
  apply Nat.leb_le in Hle. apply String.eqb_eq in Heq.
  exists (substring 0 (String.length s - String.length suf) s).
  rewrite (substring_split s (String.length s - String.length suf)) at 1 by lia.
  replace (String.length s - (String.length s - String.length suf))
    with (String.length suf) by lia.
  rewrite Heq. reflexivity.
Qed.

Lemma startsWith_app_l (p q s : string) :
  startsWith (p ++ q) s = true -> startsWith p s = true.
Proof.
  revert s; induction p as [|a p IH]; intros s H; simpl in *; auto.
  destruct s as [|b s]; [discriminate|].
  apply andb_prop in H as [H1 H2]. rewrite H1. simpl. auto.
Qed.

Lemma trimStart_head (s : string) : head_ok (trimStart s) = true.
Proof.
  induction s as [|c s IH]; simpl; auto.
  destruct (is_ws c) eqn:E; simpl; auto. rewrite E. reflexivity.
Qed.

Lemma trimEnd_head (s : string) : head_ok s = true -> head_ok (trimEnd s) = true.
Proof.
  destruct s as [|c r]; simpl; auto. intros H.
  destruct (trimEnd r); [|exact H].
  destruct (is_ws c) eqn:E; simpl; try rewrite E; reflexivity.
Qed.

Lemma trim_head (s : string) : head_ok (trim s) = true.
Proof. unfold trim. apply trimEnd_head, trimStart_head. Qed.

Lemma trimStart_id (s : string) : head_ok s = true -> trimStart s = s.
Proof.
  destruct s as [|c r]; simpl; auto. intros H.
  destruct (is_ws c); simpl in *; congruence.
Qed.

Lemma trimEnd_last (p : string) (c : ascii) :
  is_ws c = false -> trimEnd (p ++ String c "") = p ++ String c "".
Proof.
  intros Hc. induction p as [|a p IH]; simpl.
  - now rewrite Hc.
  - simpl in IH. rewrite IH. destruct p; reflexivity.
Qed.

Lemma head_ok_app (t w : string) :
  head_ok t = true -> t <> "" -> head_ok (t ++ w) = true.
Proof. destruct t; simpl; auto. Qed.

(** A string with a non-whitespace head that ends with a brace is its own
    trim. *)
Lemma trim_brace (u : string) :
  head_ok u = true -> endsWith "}" u = true -> trim u = u.
Proof.
  intros Hh He. unfold trim. rewrite trimStart_id by exact Hh.
  apply endsWith_spec in He as [p ->].
  apply trimEnd_last. reflexivity.
Qed.

(** Case analysis on every character comparison in sight. *)
Ltac split_eqb :=
  repeat (match goal with
          | |- context [Ascii.eqb ?x ?y] => destruct (Ascii.eqb x y)
          | H : context [Ascii.eqb ?x ?y] |- _ => destruct (Ascii.eqb x y)
          end; cbn [andb] in *);
  auto; try discriminate.

(** Appending text that does not start with a backtick never creates a
    leading fence. *)
Lemma startsWith_fence_app (t w : string) :
  startsWith "```" t = false -> startsWith "`" w = false ->
  startsWith "```" (t ++ w) = false.
Proof.
  intros Ht Hw.
  destruct t as [|a [|b [|d t']]]; destruct w as [|c w'];
    cbn [String.append startsWith] in *; split_eqb.
Qed.

End StringFacts.

(** ** Properties of the cleaner *)

Module CleanerFacts.
Import StringFacts.

Lemma quote_brace_brace (c : string) :
  endsWith quote_brace c = true -> endsWith closing_brace c = true.
Proof.
  intros H. apply endsWith_spec in H as [p ->].
  unfold quote_brace. rewrite app_assoc. apply endsWith_app.
Qed.

Lemma looks_truncated_brace (c : string) :
  looks_truncated c = negb (endsWith closing_brace c).
Proof.
  unfold looks_truncated.
  destruct (endsWith closing_brace c) eqn:E; simpl; auto.
  destruct (endsWith quote_brace c) eqn:F; auto.
  apply quote_brace_brace in F. congruence.
Qed.

Lemma repair_cases (c : string) :
  repair_truncation c = c \/
  repair_truncation c = c ++ recommendations_patch \/
  repair_truncation c = c ++ closing_brace.
Proof.
  unfold repair_truncation.
  destruct (looks_truncated c); auto.
  destruct (includes summary_key c && negb (includes recommendations_key c)); auto.
  destruct (negb (endsWith closing_brace c)); auto.
Qed.

Lemma repair_id (c : string) :
  endsWith closing_brace c = true -> repair_truncation c = c.
Proof.
  intros H. unfold repair_truncation.
  rewrite looks_truncated_brace, H. reflexivity.
Qed.

Lemma patch_brace : recommendations_patch =
  (dq ++ ", " ++ dq ++ "recommendations" ++ dq ++ ": " ++ dq ++
   "Please review the detailed analysis above" ++ dq) ++ closing_brace.
Proof. reflexivity. Qed.

Lemma repair_ends (c : string) :
  endsWith closing_brace (repair_truncation c) = true.
Proof.
  unfold repair_truncation. rewrite looks_truncated_brace.
  destruct (endsWith closing_brace c) eqn:E; simpl; auto.
  destruct (includes summary_key c && negb (includes recommendations_key c)).
  - rewrite patch_brace, app_assoc. apply endsWith_app.
  - apply endsWith_app.
Qed.

Lemma repair_head (t : string) :
  head_ok t = true -> head_ok (repair_truncation t) = true.
Proof.
  intros H. destruct t as [|a r].
  - reflexivity.
  - destruct (repair_cases (String a r)) as [-> | [-> | ->]]; auto;
      apply head_ok_app; auto; discriminate.
Qed.

Lemma repair_no_fence (t : string) :
  startsWith fence t = false -> startsWith fence (repair_truncation t) = false.
Proof.
  intros H.
  destruct (repair_cases t) as [-> | [-> | ->]]; auto;
    apply startsWith_fence_app; auto.
Qed.

Lemma strip_fences_id (s : string) :
  startsWith fence s = false -> strip_fences s = s.
Proof.
  intros H. unfold strip_fences.
  destruct (startsWith fence_json s) eqn:E.
  - change fence_json with (fence ++ "json") in E.
    apply startsWith_app_l in E. congruence.
  - rewrite H. reflexivity.
Qed.

End CleanerFacts.

Module JsonRuns.
Import Json.
Example parse_score : parse ("{" ++ dq ++ "score" ++ dq ++ ": 85, " ++ dq ++ "errors" ++ dq ++ ": []}")
  = Some (JObj [("score", JNum (inject_Z 85)); ("errors", JArr [])]).
Proof. reflexivity. Qed.
Example parse_trunc : parse ("{" ++ summary_key ++ " " ++ dq ++ "Good work") = None.
Proof. reflexivity. Qed.
Example parse_num : parse " -1.5e1 " = Some (JNum (inject_Z (-15) * pow10 0)).
Proof. vm_compute. reflexivity. Qed.
Example parse_bad : parse "01" = None.
Proof. reflexivity. Qed.
End JsonRuns.

Module RecoveryRuns.
Import Json Recovery.
Example recover_fenced :
  analyzeContentWithStatement parse
    ("```json" ++ String "010"%char "{" ++ dq ++ "score" ++ dq ++ ": 90}" ++
     String "010"%char "```")
  = Returned (JObj [("score", JNum (inject_Z 90));
                    ("question_analysis", JArr [])]).
Proof. reflexivity. Qed.
Example recover_null : analyzeContentWithStatement parse "null" =
  Returned (statement_fallback "null").
Proof. reflexivity. Qed.
Example recover_blank : analyzeContentWithStatement parse "  " =
  Returned (statement_fallback "  ").
Proof. reflexivity. Qed.
End RecoveryRuns.

(** * Claims about the cleaner *)

Module CleanerClaims.
Import StringFacts CleanerFacts.

(** C7: the cleaned text is flagged as truncated exactly when it does not
    end with a closing brace (the test on a quote followed by a brace adds
    nothing); a flagged text gets the recommendations suffix when it contains
    a summary key but no recommendations key, and a single brace otherwise. *)
Theorem repair_truncation_spec (c : string) :
  looks_truncated c = negb (endsWith closing_brace c) /\
  repair_truncation c =
    if negb (endsWith closing_brace c) then
      if includes summary_key c && negb (includes recommendations_key c)
      then c ++ recommendations_patch
      else c ++ closing_brace
    else c.
Proof.
  split; [apply looks_truncated_brace|].
  unfold repair_truncation. rewrite looks_truncated_brace.
  destruct (endsWith closing_brace c); reflexivity.
Qed.

(** C10: the repair only appends: the cleaned text is a prefix of the
    repaired text, and a text that already ends with a brace is returned
    unchanged. *)
Theorem repair_truncation_appends (c : string) :
  (exists w, repair_truncation c = c ++ w) /\
  (endsWith closing_brace c = true -> repair_truncation c = c).
Proof.
  split.
  - destruct (repair_cases c) as [-> | [-> | ->]].
    + exists "". symmetry. apply app_nil_r.
    + eexists. reflexivity.
    + eexists. reflexivity.
  - apply repair_id.
Qed.

Lemma repair_truncation_appends_witness :
  endsWith closing_brace "{}" = true /\ repair_truncation "{}" = "{}".
Proof.
  split; [reflexivity|].
  apply (proj2 (repair_truncation_appends "{}")). reflexivity.
Defined.

(** C8: the clean step is idempotent on text free of code fences, that is
    whose trimmed form does not start with three backticks (in particular on
    every text that contains no three backticks at all). *)
Theorem clean_idempotent (x : string) :
  startsWith fence (trim x) = false -> clean (clean x) = clean x.
Proof.
  intros H. unfold clean at 2 3.
  rewrite (strip_fences_id _ H).
  set (r := repair_truncation (trim x)).
  unfold clean.
  assert (Hr : trim r = r).
  { apply trim_brace.
    - apply repair_head, trim_head.
    - apply repair_ends. }
  rewrite Hr, strip_fences_id by (apply repair_no_fence, H).
  apply repair_id, repair_ends.
Qed.

Lemma clean_idempotent_witness :
  startsWith fence (trim ("  {" ++ summary_key ++ " 1")) = false /\
  clean (clean ("  {" ++ summary_key ++ " 1")) = clean ("  {" ++ summary_key ++ " 1").
Proof.
  split; [reflexivity|].
  apply clean_idempotent. reflexivity.
Defined.

End CleanerClaims.

(** * Claims about structured response recovery *)

Module RecoveryClaims.
Import Json Recovery.

(** C1 as stated fails on the empty reply: the explicit empty-reply guard
    throws, and the outer catch turns it into a thrown error. *)
Lemma recover_empty_raises :
  analyzeContentWithStatement parse "" =
    Raised "Failed to analyze content with statement context" /\
  analyzeContent parse "" = Raised "Failed to analyze content".
Proof. split; reflexivity. Qed.

(** C1 (amended): the empty reply is rejected with an error by both
    methods; every other reply text, whatever [JSON.parse] does with it,
    yields a returned record: the parsed and fixed-up value or the
    structured fallback. *)
Theorem recover_never_raises_nonempty
  (JSON_parse : string -> option value) (analysisText : string) :
  (analysisText = "" ->
     analyzeContentWithStatement JSON_parse analysisText =
       Raised "Failed to analyze content with statement context" /\
     analyzeContent JSON_parse analysisText = Raised "Failed to analyze content") /\
  (analysisText <> "" ->
     (analyzeContentWithStatement JSON_parse analysisText =
        Returned (statement_fallback analysisText) \/
      exists parsed v,
        JSON_parse (clean analysisText) = Some parsed /\
        ensure_question_analysis parsed = Some v /\
        analyzeContentWithStatement JSON_parse analysisText = Returned v) /\
     (analyzeContent JSON_parse analysisText =
        Returned (content_fallback analysisText) \/
      exists v, JSON_parse analysisText = Some v /\
        analyzeContent JSON_parse analysisText = Returned v)).
Proof.
  split.
  - intros ->. split; reflexivity.
  - intros Hne.
    assert (Hb : String.eqb analysisText "" = false) by (apply String.eqb_neq; exact Hne).
    unfold analyzeContentWithStatement, analyzeContent. rewrite Hb.
    split.
    + destruct (JSON_parse (clean analysisText)) as [parsed|] eqn:Ep; [|left; reflexivity].
      destruct (ensure_question_analysis parsed) as [v|] eqn:Ev; [|left; reflexivity].
      right. exists parsed, v. auto.
    + destruct (JSON_parse analysisText) as [v|] eqn:Ep; [|left; reflexivity].
      right. exists v. auto.
Qed.

Lemma recover_never_raises_nonempty_witness :
  "x" <> "" /\
  analyzeContentWithStatement parse "x" = Returned (statement_fallback "x").
Proof.
  assert (Hne : "x" <> "") by discriminate.
  split; [exact Hne|].
  destruct (proj2 (recover_never_raises_nonempty parse "x") Hne)
    as [[H | [parsed [v [Hp _]]]] _].
  - exact H.
  - vm_compute in Hp. discriminate.
Defined.

(** C6 as stated fails for [analyzeContent]: its fallback carries no note,
    every string in it is the subject or the raw reply itself. *)
Lemma content_fallback_has_no_note :
  analyzeContent parse "oops" = Returned (content_fallback "oops") /\
  ~ has_note "oops" (content_fallback_fields "oops").
Proof.
  split; [reflexivity|].
  intros [k [s [Hin [Hk Hs]]]].
  simpl in Hin.
  repeat destruct Hin as [Hin | Hin]; try discriminate; try contradiction;
    injection Hin as <- <-; contradiction.
Qed.

(** C6 (amended): in [analyzeContentWithStatement], when parsing or the
    shape fix-up of the cleaned text fails, the returned record has only
    zero numbers and empty lists, subject ["Unknown"], fixed notes in
    [summary] and [recommendations], and the raw reply verbatim in
    [raw_response]; in [analyzeContent], a parse failure of the raw reply
    returns zero numbers, empty lists, subject ["Unknown"], and the raw reply
    as both [summary] and [raw_response]. *)
Theorem degraded_record_shape
  (JSON_parse : string -> option value) (analysisText : string) :
  analysisText <> "" ->
  (parse_validate_fails JSON_parse (clean analysisText) ->
     let fs := statement_fallback_fields analysisText in
     analyzeContentWithStatement JSON_parse analysisText = Returned (JObj fs) /\
     numbers_zero fs /\ lists_empty fs /\
     get "subject" fs = Some (JStr "Unknown") /\
     get "summary" fs = Some (JStr "Analysis completed but formatting issues occurred. Please review manually.") /\
     get "recommendations" fs = Some (JStr "Please review the analysis manually") /\
     get "raw_response" fs = Some (JStr analysisText)) /\
  (JSON_parse analysisText = None ->
     let fs := content_fallback_fields analysisText in
     analyzeContent JSON_parse analysisText = Returned (JObj fs) /\
     numbers_zero fs /\ lists_empty fs /\
     get "subject" fs = Some (JStr "Unknown") /\
     get "summary" fs = Some (JStr analysisText) /\
     get "raw_response" fs = Some (JStr analysisText)).
Proof.
  intros Hne.
  assert (Hb : String.eqb analysisText "" = false) by (apply String.eqb_neq; exact Hne).
  split.
  - intros Hf fs.
    unfold parse_validate_fails, obind in Hf.
    split.
    { unfold analyzeContentWithStatement. rewrite Hb.
      destruct (JSON_parse (clean analysisText)) as [parsed|]; [|reflexivity].
      rewrite Hf. reflexivity. }
    split.
    { intros k q Hin. simpl in Hin.
      repeat destruct Hin as [Hin | Hin]; try discriminate; try contradiction.
      injection Hin as _ <-. reflexivity. }
    split.
    { intros k xs Hin. simpl in Hin.
      repeat destruct Hin as [Hin | Hin]; try discriminate; try contradiction.
      injection Hin as _ <-. reflexivity. }
    repeat split.
  - intros Hf fs.
    split.
    { unfold analyzeContent. rewrite Hb, Hf. reflexivity. }
    split.
    { intros k q Hin. simpl in Hin.
      repeat destruct Hin as [Hin | Hin]; try discriminate; try contradiction.
      injection Hin as _ <-. reflexivity. }
    split.
    { intros k xs Hin. simpl in Hin.
      repeat destruct Hin as [Hin | Hin]; try discriminate; try contradiction;
        injection Hin as _ <-; reflexivity. }
    repeat split.
Qed.

Lemma degraded_record_shape_witness :
  "null" <> "" /\ parse_validate_fails parse (clean "null") /\
  analyzeContentWithStatement parse "null" = Returned (statement_fallback "null").
Proof.
  assert (H1 : "null" <> "") by discriminate.
  assert (H2 : parse_validate_fails parse (clean "null")) by reflexivity.
  split; [exact H1|]. split; [exact H2|].
  exact (proj1 (proj1 (degraded_record_shape parse "null" H1) H2)).
Defined.

End RecoveryClaims.

(** * Facts about the normaliser *)

Module NormaliserFacts.
Import StringFacts Normaliser LoopStates.
Local Open Scope nat_scope.

(** Linear arithmetic with divisions by the page budget. *)
Ltac div2000 :=
  repeat match goal with
  | |- context [?e / 2000] =>
      let d := fresh "d" in
      pose proof (Nat.div_mod_eq e 2000);
      pose proof (Nat.mod_upper_bound e 2000 ltac:(lia));
      set (d := e / 2000) in *; clearbody d
  | H : context [?e / 2000] |- _ =>
      let d := fresh "d" in
      pose proof (Nat.div_mod_eq e 2000);
      pose proof (Nat.mod_upper_bound e 2000 ltac:(lia));
      set (d := e / 2000) in *; clearbody d
  end;
  repeat match goal with H : context [?e mod 2000] |- _ => set (e mod 2000) in * end;
  lia.




Lemma split_loop_length (f i : nat) (text : string) :
  (String.length text - i + 1999) / 2000 <= f ->
  length (split_loop f i text) = (String.length text - i + 1999) / 2000.
Proof.
  revert i; induction f as [|f IH]; intros i H; cbn [split_loop length fold_right].
  - div2000.
  - unfold textPerPage.
    destruct (Nat.ltb_spec i (String.length text)) as [Hlt|Hge];
      cbn [length fold_right].
    + rewrite IH by div2000. div2000.
    + div2000.
Qed.


Lemma text_pages_length (text : string) :
  length (text_pages text) = Nat.max 1 ((String.length text + 1999) / 2000).
Proof.
  unfold text_pages.
  pose proof (split_loop_length (String.length text) 0 text) as L.
  rewrite Nat.sub_0_r in L.
  assert (Hf : (String.length text + 1999) / 2000 <= String.length text) by div2000.
  specialize (L Hf).
  destruct (split_loop (String.length text) 0 text) as [|p ps] eqn:E.
  - cbn [length] in *. rewrite <- L. reflexivity.
  - rewrite L. cbn [length] in L. lia.
Qed.




Section Runs.
Variables page buffer : Type.
Variable sharp_svg : string -> option page.
Variable sharp_page : buffer -> option page.


Lemma render_pages_length pages i total imgs :
  render_pages sharp_svg pages i total = Ok imgs -> length imgs = length pages.
Proof.
  revert i imgs; induction pages as [|p ps IH]; intros i imgs H; simpl in *.
  - injection H as <-. reflexivity.
  - destruct (createTextImage sharp_svg p (i + 1) total); [|discriminate].
    destruct (render_pages sharp_svg ps (S i) total) eqn:E; [|discriminate].
    injection H as <-. simpl. f_equal. eapply IH. exact E.
Qed.

Lemma run_loop_stopped f convert st :
  hasMorePages st = false -> run_loop sharp_page f convert st = st.
Proof. intros H. destruct f; simpl; [reflexivity|]. rewrite H. reflexivity. Qed.

(** The loop invariant: [images.length = pageNum - 1 <= 20]. *)
Lemma run_loop_inv f convert st :
  loop_inv st -> loop_inv (run_loop sharp_page f convert st).
Proof.
  revert st; induction f as [|f IH]; intros st [H1 H2]; simpl; [split; auto|].
  destruct (hasMorePages st && (pageNum st <=? 20)) eqn:G; [|split; auto].
  apply andb_prop in G as [_ G]. apply Nat.leb_le in G.
  apply IH. unfold loop_body.
  destruct (convert (pageNum st)) as [b|]; [destruct (sharp_page b)|];
    unfold loop_inv; simpl; rewrite ?List.length_app; simpl; split; lia.
Qed.

Lemma tier1_at_most_20 convert imgs :
  processPDFWithPdf2Pic sharp_page convert = Ok imgs -> 1 <= length imgs <= 20.
Proof.
  unfold processPDFWithPdf2Pic. intros H.
  pose proof (run_loop_inv 21 convert {| images := []; pageNum := 1; hasMorePages := true |})
    as [I1 I2]; [split; simpl; lia|].
  destruct (images _) as [|x xs] eqn:E; [discriminate|].
  injection H as <-. simpl in *. lia.
Qed.

End Runs.

End NormaliserFacts.

(** * Claims about document normalisation *)

Module NormaliserClaims.
Import StringFacts Normaliser NormaliserFacts Inputs LoopStates.
Local Open Scope nat_scope.

Section Tier1.
Variables page buffer : Type.
Variable sharp_svg : string -> option page.
Variable sharp_page : buffer -> option page.
Variable convert : nat -> option buffer.
Variable k : nat.
Variable pg : nat -> page.
Hypothesis Hk : 1 <= k <= 20.
Hypothesis Hok : forall i, 1 <= i <= k -> tier1_page sharp_page convert i = Some (pg i).
Hypothesis Hstop : k < 20 -> tier1_page sharp_page convert (S k) = None.

Lemma run_loop_prefix f j :
  j <= k -> k - j < f ->
  images (run_loop sharp_page f convert (prefix_state pg j)) = map pg (seq 1 k).
Proof.
  revert j; induction f as [|f IH]; intros j Hj Hf; [lia|].
  cbn [run_loop]. unfold prefix_state. cbn [hasMorePages pageNum andb].
  destruct (Nat.eq_dec j k) as [->|Hne].
  - destruct (Nat.leb_spec (S k) 20) as [Hle|Hgt].
    + pose proof (Hstop ltac:(lia)) as Hs.
      unfold tier1_page in Hs. unfold loop_body. cbn [pageNum].
      destruct (convert (S k)) as [b|]; [rewrite Hs|];
        rewrite run_loop_stopped; reflexivity.
    + reflexivity.
  - replace (S j <=? 20) with true by (symmetry; apply Nat.leb_le; lia).
    pose proof (Hok (S j) ltac:(lia)) as Hs.
    unfold tier1_page in Hs. unfold loop_body. cbn [pageNum images].
    destruct (convert (S j)) as [b|]; [|discriminate]. rewrite Hs.
    rewrite <- (IH (S j)) by lia. unfold prefix_state.
    rewrite seq_S, map_app. reflexivity.
Qed.

End Tier1.

(** C3: when the tier-1 step (conversion then optimisation) succeeds for
    pages 1..k, with 1 <= k <= 20, and fails for page k+1, [processPDF]
    returns exactly those k pages in page order, without invoking the text
    extraction fallback. *)
Theorem tier1_returns_prefix {page buffer : Type}
  (sharp_svg : string -> option page) (sharp_page : buffer -> option page)
  (convert : nat -> option buffer) (pdf_parse : result string)
  (k : nat) (pg : nat -> page) :
  1 <= k <= 20 ->
  (forall i, 1 <= i <= k -> tier1_page sharp_page convert i = Some (pg i)) ->
  (k < 20 -> tier1_page sharp_page convert (S k) = None) ->
  processPDF sharp_svg sharp_page (Some convert) pdf_parse =
    {| fallback_used := false; outcome := Ok (map pg (seq 1 k)) |}.
Proof.
  intros Hk Hok Hstop.
  unfold processPDF, processPDFWithPdf2Pic.
  pose proof (run_loop_prefix page buffer sharp_page convert k pg Hk Hok Hstop 21 0
                ltac:(lia) ltac:(lia)) as E.
  unfold prefix_state in E. cbn [seq map] in E. rewrite E.
  destruct k as [|k]; [lia|]. reflexivity.
Qed.

Lemma tier1_returns_prefix_witness :
  processPDF (fun _ => @None nat) Some (Some three_page_pdf) (Ok "") =
    {| fallback_used := false; outcome := Ok (map (fun n => n) (seq 1 3)) |}.
Proof.
  apply (tier1_returns_prefix (fun _ => @None nat) Some three_page_pdf (Ok "") 3 (fun n => n)).
  - lia.
  - intros i Hi. unfold tier1_page, three_page_pdf.
    replace ((1 <=? i) && (i <=? 3)) with true
      by (symmetry; apply andb_true_intro; split; apply Nat.leb_le; lia).
    reflexivity.
  - intros _. reflexivity.
Defined.



Lemma tier2_length {page : Type} (sharp_svg : string -> option page)
  (pdf_parse : result string) ps :
  processPDFWithTextExtraction sharp_svg pdf_parse = Ok ps ->
  exists text, pdf_parse = Ok text /\
    length ps = Nat.max 1 ((String.length text + 1999) / 2000).
Proof.
  unfold processPDFWithTextExtraction. destruct pdf_parse as [text|m]; [|discriminate].
  destruct (render_pages _ _ _ _) as [imgs|m] eqn:E; [|discriminate].
  intros H. injection H as <-. exists text. split; [reflexivity|].
  rewrite <- text_pages_length. eapply render_pages_length. exact E.
Qed.



(** C2 (counterexample): the tier-2 fallback has no page ceiling. With
    tier 1 unavailable and an extracted text of 40001 characters,
    [processFile] on a PDF returns 21 pages. *)
Lemma tier2_exceeds_ceiling :
  match processFile svg_as_page (fun _ : nat => @None string) None None
          (Ok long_text) ".pdf" with
  | Ok ps => length ps = 21
  | Err _ => False
  end.
Proof. vm_compute. reflexivity. Qed.

(** C2 (amended): the ceiling of 20 pages holds for tier 1 only. When
    [processFile] succeeds: an image gives one page; a PDF rasterised by
    tier 1 gives between 1 and 20 pages; a PDF handled by the text
    extraction fallback gives max 1 (ceil (length text / 2000)) pages,
    with no upper bound. *)
Theorem processFile_page_counts {page buffer : Type}
  (sharp_svg : string -> option page) (sharp_page : buffer -> option page)
  (sharp_image : option page) (pdf2pic : option (nat -> option buffer))
  (pdf_parse : result string) (ext : string) (ps : list page) :
  processFile sharp_svg sharp_page sharp_image pdf2pic pdf_parse ext = Ok ps ->
  (ext <> ".pdf" /\ length ps = 1)
  \/ (ext = ".pdf"
      /\ fallback_used (processPDF sharp_svg sharp_page pdf2pic pdf_parse) = false
      /\ 1 <= length ps <= 20)
  \/ (ext = ".pdf"
      /\ fallback_used (processPDF sharp_svg sharp_page pdf2pic pdf_parse) = true
      /\ exists text, pdf_parse = Ok text
           /\ length ps = Nat.max 1 ((String.length text + 1999) / 2000)).
Proof.
  unfold processFile. destruct (String.eqb_spec ext ".pdf") as [->|Hne].
  - unfold processPDF. intros H. right.
    destruct pdf2pic as [convert|].
    + destruct (processPDFWithPdf2Pic sharp_page convert) as [imgs|m] eqn:E.
      * left. cbn in H |- *. injection H as <-.
        split; [reflexivity|split; [reflexivity|]].
        eapply tier1_at_most_20. exact E.
      * right. cbn in H |- *. split; [reflexivity|split; [reflexivity|]].
        eapply tier2_length. exact H.
    + right. cbn in H |- *. split; [reflexivity|split; [reflexivity|]].
      eapply tier2_length. exact H.
  - intros H. left. split; [exact Hne|].
    destruct (existsb _ _); [|discriminate].
    unfold processImage in H. destruct sharp_image; [|discriminate].
    injection H as <-. reflexivity.
Qed.

Lemma processFile_page_counts_witness :
  (".png" <> ".pdf" /\ length ["image"] = 1)
  \/ (".png" = ".pdf"
      /\ fallback_used (processPDF svg_as_page (fun _ : nat => @None string) None (Ok ""))
         = false
      /\ 1 <= length ["image"] <= 20)
  \/ (".png" = ".pdf"
      /\ fallback_used (processPDF svg_as_page (fun _ : nat => @None string) None (Ok ""))
         = true
      /\ exists text, (Ok "" : result string) = Ok text
           /\ length ["image"] = Nat.max 1 ((String.length text + 1999) / 2000)).
Proof.
  apply (processFile_page_counts svg_as_page (fun _ : nat => @None string)
           (Some "image") None (Ok "") ".png" ["image"]).
  reflexivity.
Defined.




End NormaliserClaims.

(** * Further properties of the AI service *)

Module AIServiceFacts.
Import Json Normaliser Recovery AIService.

Lemma analyzeContent_raised JSON_parse t m :
  analyzeContent JSON_parse t = Raised m -> m = "Failed to analyze content".
Proof.
  unfold analyzeContent. destruct (String.eqb t ""); [congruence|].
  destruct (JSON_parse t); discriminate.
Qed.

Lemma analyzeContent_reply_raised JSON_parse r m :
  analyzeContent_reply JSON_parse r = Raised m -> m = "Failed to analyze content".
Proof.
  destruct r as [e| |t]; simpl; try congruence. apply analyzeContent_raised.
Qed.

Lemma extractContent_err r m :
  extractContent r = Err m -> m = "Failed to extract content from images".
Proof.
  destruct r as [e| |c]; simpl; try congruence.
  destruct (String.eqb c ""); congruence.
Qed.

End AIServiceFacts.

Module AIServiceExtras.
Import Json Normaliser Recovery AIService AIServiceFacts.

(** [analyzeExam] hides the cause of a failure: it fails only with
    'AI analysis failed: Failed to extract content from images', when the
    vision step fails, or with 'AI analysis failed: Failed to analyze
    content', when the vision step succeeded and the analysis step fails. *)
Theorem analyzeExam_failure_messages JSON_parse timestamp filename vision analysis m :
  analyzeExam JSON_parse timestamp filename vision analysis = Raised m ->
  (extractContent vision = Err "Failed to extract content from images" /\
   m = "AI analysis failed: Failed to extract content from images")
  \/ (exists c, extractContent vision = Ok c /\
        m = "AI analysis failed: Failed to analyze content").
Proof.
  unfold analyzeExam. destruct (extractContent vision) as [c|e] eqn:E.
  - destruct (analyzeContent_reply JSON_parse (analysis c)) as [a|e] eqn:A;
      [discriminate|].
    intros H. injection H as <-. right. exists c. split; [reflexivity|].
    rewrite (analyzeContent_reply_raised _ _ _ A). reflexivity.
  - intros H. injection H as <-. left.
    rewrite (extractContent_err _ _ E). split; reflexivity.
Qed.

Lemma analyzeExam_failure_messages_witness :
  analyzeExam parse "2026-01-01T00:00:00.000Z" "exam.pdf" Malformed
    (fun _ => Malformed) = Raised "AI analysis failed: Failed to extract content from images" /\
  ((extractContent Malformed = Err "Failed to extract content from images" /\
    "AI analysis failed: Failed to extract content from images" =
      "AI analysis failed: Failed to extract content from images")
   \/ (exists c, extractContent Malformed = Ok c /\
         "AI analysis failed: Failed to extract content from images" =
           "AI analysis failed: Failed to analyze content")).
Proof.
  assert (H : analyzeExam parse "2026-01-01T00:00:00.000Z" "exam.pdf" Malformed
                (fun _ => Malformed) =
              Raised "AI analysis failed: Failed to extract content from images")
    by reflexivity.
  split; [exact H|]. exact (analyzeExam_failure_messages _ _ _ _ _ _ H).
Defined.

(** [analyzeExamWithStatement] succeeds whenever the vision step returns a
    non-empty content and the analysis request returns a non-empty reply:
    the record carries the file name, the extracted content, the recovered
    analysis of the reply (parsed or fallback) and [statement_used: true]. *)
Theorem analyzeExamWithStatement_returns JSON_parse timestamp filename c analysis t :
  c <> "" -> analysis c = Content t -> t <> "" ->
  exists a,
    analyzeContentWithStatement JSON_parse t = Returned a /\
    analyzeExamWithStatement JSON_parse timestamp filename (Content c) analysis =
      Returned (JObj [("filename", JStr filename); ("extractedContent", JStr c);
                      ("analysis", a); ("statement_used", JBool true);
                      ("timestamp", JStr timestamp)]).
Proof.
  intros Hc Ha Ht.
  assert (Hb : String.eqb t "" = false) by (apply String.eqb_neq; exact Ht).
  assert (Ret : exists a, analyzeContentWithStatement JSON_parse t = Returned a).
  { unfold analyzeContentWithStatement. rewrite Hb.
    destruct (JSON_parse (clean t)) as [p|]; [|eexists; reflexivity].
    destruct (ensure_question_analysis p); eexists; reflexivity. }
  destruct Ret as [a Ha']. exists a. split; [exact Ha'|].
  unfold analyzeExamWithStatement, extractContent.
  replace (String.eqb c "") with false by (symmetry; apply String.eqb_neq; exact Hc).
  unfold analyzeContentWithStatement_reply. rewrite Ha, Ha'. reflexivity.
Qed.

Lemma analyzeExamWithStatement_returns_witness :
  exists a,
    analyzeContentWithStatement parse "{}" = Returned a /\
    analyzeExamWithStatement parse "2026-01-01T00:00:00.000Z" "exam.pdf" (Content "x")
      (fun _ => Content "{}") =
      Returned (JObj [("filename", JStr "exam.pdf"); ("extractedContent", JStr "x");
                      ("analysis", a); ("statement_used", JBool true);
                      ("timestamp", JStr "2026-01-01T00:00:00.000Z")]).
Proof.
  apply (analyzeExamWithStatement_returns parse "2026-01-01T00:00:00.000Z" "exam.pdf" "x"
           (fun _ => Content "{}") "{}").
  - discriminate.
  - reflexivity.
  - discriminate.
Defined.

End AIServiceExtras.

Module QuizFacts.
Import Json Normaliser AIService.

Section Checks.
Variable JSON_parse : string -> option value.
Variable syntax_error_message : string -> string.
Variable null_read_message : string -> string.

Lemma validate_question_eq i x :
  x <> JNull ->
  validate_question null_read_message i x =
    if negb (truthy_member (member x "type")) || negb (truthy_member (member x "question"))
       || negb (truthy_member (member x "correctAnswer"))
    then Err ("Invalid question at index " ++ nat_str i ++ ": missing required fields")
    else if is_multiple_choice (member x "type") && negb (has_options (member x "options"))
    then Err ("Invalid multiple choice question at index " ++ nat_str i ++
              ": insufficient options")
    else Ok {| id := js_or (member x "id") (JNum (inject_Z (Z.of_nat (i + 1))));
               type := member x "type";
               question := member x "question";
               options := js_or (member x "options") JNull;
               correctAnswer := member x "correctAnswer" |}.
Proof. destruct x; [congruence| reflexivity ..]. Qed.

Lemma truthy_index i : truthy (JNum (inject_Z (Z.of_nat (i + 1)))) = true.
Proof.
  unfold truthy. destruct (Qeq_bool _ 0) eqn:Q; [|reflexivity].
  apply Qeq_bool_iff in Q. unfold Qeq in Q. simpl in Q. lia.
Qed.

Lemma null_or_not (x : value) : x = JNull \/ x <> JNull.
Proof. destruct x; [left; reflexivity| right; discriminate ..]. Qed.

Lemma validate_question_valid i x v :
  validate_question null_read_message i x = Ok v -> valid_question v.
Proof.
  destruct (null_or_not x) as [->|Hx]; [discriminate|].
  rewrite (validate_question_eq i x Hx).
  destruct (truthy_member (member x "type")) eqn:T1,
           (truthy_member (member x "question")) eqn:T2,
           (truthy_member (member x "correctAnswer")) eqn:T3;
    simpl; try discriminate.
  destruct (is_multiple_choice (member x "type")) eqn:M,
           (has_options (member x "options")) eqn:O;
    simpl; try discriminate;
    intros H; injection H as <-; unfold valid_question; cbn [id type question options correctAnswer];
    (split; [exact T1|]); (split; [exact T2|]); (split; [exact T3|]);
    (split; [destruct (member x "id") as [w|]; simpl;
             [destruct (truthy w) eqn:W; [exact W| apply truthy_index] | apply truthy_index]|]);
    intros Hm; try congruence.
  destruct (member x "options") as [[| | | | xs |]|]; simpl in O; try discriminate.
  exists xs. split; [reflexivity|]. apply Nat.leb_le. exact O.
Qed.

Lemma validate_from_valid i raw qs :
  validate_from null_read_message i raw = Ok qs ->
  length qs = length raw /\ Forall valid_question qs.
Proof.
  revert i qs; induction raw as [|x raw IH]; intros i qs H; simpl in H.
  - injection H as <-. split; [reflexivity| constructor].
  - destruct (validate_question null_read_message i x) as [v|m] eqn:E; [|discriminate].
    destruct (validate_from null_read_message (S i) raw) as [vs|m] eqn:E2; [|discriminate].
    injection H as <-. destruct (IH (S i) vs E2) as [L F].
    split; [simpl; congruence|]. constructor; [|exact F].
    eapply validate_question_valid. exact E.
Qed.

Lemma validate_from_prefix i pre x post :
  (forall j y, nth_error pre j = Some y ->
     exists v, validate_question null_read_message (i + j) y = Ok v) ->
  forall m, validate_question null_read_message (i + length pre) x = Err m ->
  validate_from null_read_message i (pre ++ x :: post) = Err m.
Proof.
  revert i; induction pre as [|y pre IH]; intros i Hpre m Hx; simpl in *.
  - rewrite Nat.add_0_r in Hx. rewrite Hx. reflexivity.
  - destruct (Hpre 0 y eq_refl) as [v Hv]. rewrite Nat.add_0_r in Hv. rewrite Hv.
    erewrite (IH (S i)); [reflexivity| |].
    + intros j z Hz. destruct (Hpre (S j) z Hz) as [w Hw].
      exists w. rewrite <- Hw. f_equal. lia.
    + rewrite <- Hx. f_equal. lia.
Qed.

Lemma quiz_from_data_ok d qs :
  quiz_from_data null_read_message d = Ok qs ->
  exists raw, member d "questions" = Some (JArr raw) /\
    validate_from null_read_message 0 raw = Ok qs.
Proof.
  unfold quiz_from_data. intros H.
  destruct d as [| | | | | fs]; simpl in H; try discriminate.
  destruct (get "questions" fs) as [[| | | | raw |]|] eqn:E; try discriminate.
  exists raw. split; [exact E | exact H].
Qed.

Lemma generateQuiz_ok reply qs :
  generateQuiz JSON_parse syntax_error_message null_read_message reply = Ok qs ->
  exists quizText quizData raw,
    reply = Content quizText /\
    JSON_parse (strip_fences (trim quizText)) = Some quizData /\
    member quizData "questions" = Some (JArr raw) /\
    validate_from null_read_message 0 raw = Ok qs.
Proof.
  destruct reply as [m| |t]; simpl; try discriminate.
  destruct (String.eqb t ""); [discriminate|].
  destruct (JSON_parse (strip_fences (trim t))) as [d|] eqn:P; [|discriminate].
  destruct (quiz_from_data null_read_message d) as [vs|m] eqn:Q; [|discriminate].
  intros H. injection H as <-.
  destruct (quiz_from_data_ok d vs Q) as [raw [M V]].
  exists t, d, raw. auto.
Qed.

End Checks.
End QuizFacts.

Module QuizExtras.
Import Json Normaliser AIService QuizFacts ServiceInputs Server.

(** A quiz returned by [generateQuiz] comes from a reply whose cleaned
    text parses to a value with a [questions] array; it has exactly one
    question per entry of that array, and every returned question has a
    truthy id, type, text and correct answer, and, if it is a multiple
    choice question, an options array with at least two entries. *)
Theorem generateQuiz_validated JSON_parse syntax_error_message null_read_message reply qs :
  generateQuiz JSON_parse syntax_error_message null_read_message reply = Ok qs ->
  exists quizText quizData raw,
    reply = Content quizText /\
    JSON_parse (strip_fences (trim quizText)) = Some quizData /\
    member quizData "questions" = Some (JArr raw) /\
    length qs = length raw /\ Forall valid_question qs.
Proof.
  intros H.
  destruct (generateQuiz_ok _ _ _ _ _ H) as [t [d [raw [R [P [M V]]]]]].
  destruct (validate_from_valid _ _ _ _ V) as [L F].
  exists t, d, raw. auto.
Qed.

Lemma generateQuiz_validated_witness :
  generateQuiz parse syntax_msg null_msg sample_quiz_reply = Ok sample_quiz /\
  exists quizText quizData raw,
    sample_quiz_reply = Content quizText /\
    parse (strip_fences (trim quizText)) = Some quizData /\
    member quizData "questions" = Some (JArr raw) /\
    length sample_quiz = length raw /\ Forall valid_question sample_quiz.
Proof.
  assert (E : generateQuiz parse syntax_msg null_msg sample_quiz_reply = Ok sample_quiz)
    by (vm_compute; reflexivity).
  split; [exact E|]. exact (generateQuiz_validated _ _ _ _ _ E).
Defined.

(** The questions are checked in order and the first failing one decides
    the error: if every question before index [i] passes the checks and the
    question at [i] is not [null] but lacks a truthy [type], [question] or
    [correctAnswer], [generateQuiz] fails with 'Quiz generation failed:
    Failed to parse quiz response: Invalid question at index i: missing
    required fields'. *)
Theorem generateQuiz_first_invalid JSON_parse syntax_error_message null_read_message
  quizText quizData pre x post :
  quizText <> "" ->
  JSON_parse (strip_fences (trim quizText)) = Some quizData ->
  member quizData "questions" = Some (JArr (pre ++ x :: post)) ->
  (forall j y, nth_error pre j = Some y ->
     exists v, validate_question null_read_message j y = Ok v) ->
  x <> JNull ->
  truthy_member (member x "type") && truthy_member (member x "question")
    && truthy_member (member x "correctAnswer") = false ->
  generateQuiz JSON_parse syntax_error_message null_read_message (Content quizText) =
    Err ("Quiz generation failed: Failed to parse quiz response: Invalid question at index "
         ++ nat_str (length pre) ++ ": missing required fields").
Proof.
  intros Ht P M Hpre Hx Hf. simpl.
  replace (String.eqb quizText "") with false by (symmetry; apply String.eqb_neq; exact Ht).
  rewrite P.
  assert (Q : quiz_from_data null_read_message quizData =
              Err ("Invalid question at index " ++ nat_str (length pre) ++
                   ": missing required fields")).
  { unfold quiz_from_data.
    destruct quizData as [| | | | | fs]; try discriminate. simpl in M |- *. rewrite M.
    apply (validate_from_prefix null_read_message 0 pre x post); [exact Hpre|].
    rewrite (validate_question_eq null_read_message _ x Hx).
    destruct (truthy_member (member x "type")), (truthy_member (member x "question")),
             (truthy_member (member x "correctAnswer")); simpl in Hf |- *;
      congruence. }
  rewrite Q. reflexivity.
Qed.

Lemma generateQuiz_first_invalid_witness :
  generateQuiz parse syntax_msg null_msg (Content broken_quiz_text) =
    Err ("Quiz generation failed: Failed to parse quiz response: Invalid question at index "
         ++ nat_str 1 ++ ": missing required fields").
Proof.
  refine (generateQuiz_first_invalid parse syntax_msg null_msg broken_quiz_text
    (JObj [("questions", JArr [
       JObj [("type", JStr "true_false"); ("question", JStr "Is 2 > 1?");
             ("correctAnswer", JStr "true")];
       JObj [("type", JStr "true_false"); ("correctAnswer", JStr "false")]])])
    [JObj [("type", JStr "true_false"); ("question", JStr "Is 2 > 1?");
           ("correctAnswer", JStr "true")]]
    (JObj [("type", JStr "true_false"); ("correctAnswer", JStr "false")]) []
    _ _ _ _ _ _).
  - discriminate.
  - vm_compute. reflexivity.
  - reflexivity.
  - intros j y H. destruct j as [|j]; [|destruct j; discriminate].
    injection H as <-. eexists. reflexivity.
  - discriminate.
  - reflexivity.
Defined.

(** [generateQuiz] does not check the number of questions: a reply whose
    questions array is empty yields an empty quiz, not an error. *)
Theorem generateQuiz_empty_questions JSON_parse syntax_error_message null_read_message
  quizText quizData :
  quizText <> "" ->
  JSON_parse (strip_fences (trim quizText)) = Some quizData ->
  member quizData "questions" = Some (JArr []) ->
  generateQuiz JSON_parse syntax_error_message null_read_message (Content quizText) = Ok [].
Proof.
  intros Ht P M. simpl.
  replace (String.eqb quizText "") with false by (symmetry; apply String.eqb_neq; exact Ht).
  rewrite P. unfold quiz_from_data.
  destruct quizData as [| | | | | fs]; try discriminate. simpl in M |- *. rewrite M.
  reflexivity.
Qed.

Lemma generateQuiz_empty_questions_witness :
  generateQuiz parse syntax_msg null_msg (Content (Normaliser.q "{'questions': []}")) = Ok [].
Proof.
  apply (generateQuiz_empty_questions parse syntax_msg null_msg _
           (JObj [("questions", JArr [])])).
  - discriminate.
  - vm_compute. reflexivity.
  - reflexivity.
Defined.

(** The quiz route sends the generated questions to the client without
    their answers: for a quiz returned by [generateQuiz], the client list
    has one object per question, each without a [correctAnswer] property
    and with a truthy [type] and [question]. *)
Theorem client_questions_hide_answers JSON_parse syntax_error_message null_read_message
  reply qs :
  generateQuiz JSON_parse syntax_error_message null_read_message reply = Ok qs ->
  length (client_questions qs) = length qs /\
  Forall (fun v => exists fs, v = JObj fs /\ get "correctAnswer" fs = None /\
            (exists t, get "type" fs = Some t /\ truthy t = true) /\
            (exists x, get "question" fs = Some x /\ truthy x = true))
         (client_questions qs).
Proof.
  intros H.
  destruct (generateQuiz_ok _ _ _ _ _ H) as [t [d [raw [R [P [M V]]]]]].
  destruct (validate_from_valid _ _ _ _ V) as [_ F].
  unfold client_questions. split; [apply length_map|].
  apply Forall_map. eapply Forall_impl; [|exact F].
  intros q [T1 [T2 _]]. unfold client_question.
  destruct (type q) as [ty|]; [|discriminate].
  destruct (question q) as [qu|]; [|discriminate].
  eexists. split; [reflexivity|]. simpl.
  split; [reflexivity|]. split; eexists; split; try reflexivity; assumption.
Qed.

Lemma client_questions_hide_answers_witness :
  length (client_questions sample_quiz) = length sample_quiz /\
  Forall (fun v => exists fs, v = JObj fs /\ get "correctAnswer" fs = None /\
            (exists t, get "type" fs = Some t /\ truthy t = true) /\
            (exists x, get "question" fs = Some x /\ truthy x = true))
         (client_questions sample_quiz).
Proof.
  apply (client_questions_hide_answers parse syntax_msg null_msg sample_quiz_reply).
  vm_compute. reflexivity.
Defined.

End QuizExtras.

Module QuizServiceFacts.
Import Json Normaliser AIService QuizService.

Lemma map_get_set_same {V : Type} k (v : V) m : map_get k (map_set k v m) = Some v.
Proof.
  induction m as [|[k' v'] m IH]; simpl; [now rewrite String.eqb_refl|].
  destruct (String.eqb k k') eqn:E; simpl; [now rewrite String.eqb_refl|].
  rewrite E. exact IH.
Qed.

Lemma map_get_set_other {V : Type} k k2 (v : V) m :
  k2 <> k -> map_get k2 (map_set k v m) = map_get k2 m.
Proof.
  intros Hne. induction m as [|[k' v'] m IH]; simpl.
  - replace (String.eqb k2 k) with false by (symmetry; apply String.eqb_neq; exact Hne).
    reflexivity.
  - destruct (String.eqb k k') eqn:E; simpl.
    + apply String.eqb_eq in E. subst k'.
      replace (String.eqb k2 k) with false by (symmetry; apply String.eqb_neq; exact Hne).
      reflexivity.
    + destruct (String.eqb k2 k'); [reflexivity| exact IH].
Qed.

Lemma map_set_length {V : Type} k (v : V) m :
  length (map_set k v m) = match map_get k m with Some _ => length m | None => S (length m) end.
Proof.
  induction m as [|[k' v'] m IH]; simpl; [reflexivity|].
  destruct (String.eqb k k'); simpl; [reflexivity|].
  rewrite IH. destruct (map_get k m); reflexivity.
Qed.

Lemma fold_sizes {V : Type} (m : list (string * list V)) a :
  fold_left (fun sum e => sum + length (snd e)) m a = a + sizes m.
Proof.
  unfold sizes. revert a; induction m as [|e m IH]; intros a; simpl; [lia|].
  rewrite IH. lia.
Qed.

Lemma sizes_set {V : Type} k (v : list V) m :
  sizes (map_set k v m) + match map_get k m with Some o => length o | None => 0 end =
  sizes m + length v.
Proof.
  unfold sizes. induction m as [|[k' v'] m IH]; simpl; [lia|].
  destruct (String.eqb k k'); simpl; [lia|]. lia.
Qed.

Lemma count_correct_filter ds : count_correct ds = length (filter isCorrect ds).
Proof.
  unfold count_correct.
  assert (G : forall a, fold_left (fun n d => if isCorrect d then S n else n) ds a =
                        a + length (filter isCorrect ds)).
  { induction ds as [|d ds IH]; intros a; simpl; [lia|].
    destruct (isCorrect d); simpl; rewrite IH; lia. }
  apply G.
Qed.

Lemma filter_map_length {A B : Type} (f : A -> B) (p : B -> bool) l :
  length (filter p (map f l)) = length (filter (fun x => p (f x)) l).
Proof.
  induction l as [|x l IH]; simpl; [reflexivity|].
  destruct (p (f x)); simpl; congruence.
Qed.

Lemma filter_length_le {A : Type} (p : A -> bool) l : length (filter p l) <= length l.
Proof.
  induction l as [|x l IH]; simpl; [lia|]. destruct (p x); simpl; lia.
Qed.

(** Facts on single code units, checked over all 256 of them. *)
Lemma lower_char_idem c : lower_char (lower_char c) = lower_char c.
Proof.
  destruct c as [[] [] [] [] [] [] [] []]; reflexivity.
Qed.

Lemma lower_char_ws c : is_ws c = true -> lower_char c = c.
Proof.
  destruct c as [[] [] [] [] [] [] [] []]; vm_compute; congruence.
Qed.

Lemma toLowerCase_app s t : toLowerCase (s ++ t) = toLowerCase s ++ toLowerCase t.
Proof. induction s as [|c s IH]; simpl; congruence. Qed.

Lemma toLowerCase_idem s : toLowerCase (toLowerCase s) = toLowerCase s.
Proof. induction s as [|c s IH]; simpl; [reflexivity|]. now rewrite lower_char_idem, IH. Qed.

Lemma toLowerCase_ws w : all_ws w = true -> toLowerCase w = w.
Proof.
  induction w as [|c w IH]; simpl; [reflexivity|].
  intros H. apply andb_true_iff in H as [H1 H2]. now rewrite lower_char_ws, IH.
Qed.

Lemma toLowerCase_length s : String.length (toLowerCase s) = String.length s.
Proof. induction s as [|c s IH]; simpl; congruence. Qed.

Lemma trimStart_ws_app w s : all_ws w = true -> trimStart (w ++ s) = trimStart s.
Proof.
  induction w as [|c w IH]; simpl; [reflexivity|].
  intros H. apply andb_true_iff in H as [H1 H2]. rewrite H1. apply IH, H2.
Qed.

Lemma trimEnd_ws w : all_ws w = true -> trimEnd w = "".
Proof.
  induction w as [|c w IH]; simpl; [reflexivity|].
  intros H. apply andb_true_iff in H as [H1 H2]. rewrite IH by exact H2. now rewrite H1.
Qed.

Lemma trimEnd_app_ws s w : all_ws w = true -> trimEnd (s ++ w) = trimEnd s.
Proof.
  intros Hw. induction s as [|c s IH]; simpl; [apply trimEnd_ws, Hw|]. now rewrite IH.
Qed.

Lemma trimStart_app_ws s w :
  all_ws w = true ->
  trimStart (s ++ w) = trimStart s ++ w \/ (trimStart s = "" /\ trimStart (s ++ w) = "").
Proof.
  intros Hw. induction s as [|c s IH]; simpl.
  - right. split; [reflexivity|].
    assert (En : forall x : string, (x ++ "")%string = x)
      by (induction x as [|c x IH]; simpl; congruence).
    rewrite <- (En w) at 1. rewrite trimStart_ws_app by exact Hw. reflexivity.
  - destruct (is_ws c); [exact IH| left; reflexivity].
Qed.

Lemma trim_padding w1 s w2 :
  all_ws w1 = true -> all_ws w2 = true -> trim (w1 ++ s ++ w2) = trim s.
Proof.
  intros H1 H2. unfold trim. rewrite trimStart_ws_app by exact H1.
  destruct (trimStart_app_ws s w2 H2) as [E | [E1 E2]].
  - rewrite E. apply trimEnd_app_ws, H2.
  - rewrite E1, E2. reflexivity.
Qed.

Lemma read_answer_ok nts rnm answerOf answers key o :
  read_answer nts rnm answerOf answers key = Ok o -> o = answerOf key.
Proof.
  unfold read_answer. destruct answers; try discriminate;
    destruct (js_String nts key); congruence.
Qed.

(** The entries a completed [forEach] pushes, question by question. *)
Lemma grade_all_ok nts rnm answerOf answers qs ds :
  grade_all nts rnm answerOf answers qs = Ok ds ->
  Forall2 (fun q d => questionId d = id q /\ userAnswer d = answerOf (id q) /\
                      checkAnswer nts q (answerOf (id q)) = Ok (isCorrect d)) qs ds.
Proof.
  revert ds; induction qs as [|q qs IH]; intros ds; simpl.
  - intros H; injection H as <-. constructor.
  - unfold grade at 1.
    destruct (read_answer nts rnm answerOf answers (id q)) as [o|m] eqn:Er; [|discriminate].
    apply read_answer_ok in Er. subst o.
    destruct (checkAnswer nts q (answerOf (id q))) as [b|m] eqn:Ec; [|discriminate].
    destruct (grade_all nts rnm answerOf answers qs) as [ds'|m]; [|discriminate].
    intros H; injection H as <-. constructor; [simpl; auto|]. apply IH; reflexivity.
Qed.

(** One step of the [forEach] completes exactly when [answers] is not
    [null], the question id converts to a key and [checkAnswer] returns. *)
Lemma grade_success nts rnm answerOf answers q :
  (exists d, grade nts rnm answerOf answers q = Ok d) <->
  (answers <> JNull /\ js_String nts (id q) <> None /\
   exists b, checkAnswer nts q (answerOf (id q)) = Ok b).
Proof.
  unfold grade, read_answer.
  destruct answers;
    [split; [intros [d H]; discriminate | intros [H _]; congruence] | ..];
    (destruct (js_String nts (id q)) eqn:Ek;
     [destruct (checkAnswer nts q (answerOf (id q))) eqn:Ec|]);
    (split; [intros [d H]; try discriminate | intros [H1 [H2 [b0 Hb]]]; try congruence]);
    repeat split; eauto; discriminate.
Qed.

(** The [forEach] completes exactly when every step does; with no
    question it completes also on [null]. *)
Lemma grade_all_success nts rnm answerOf answers qs :
  (exists ds, grade_all nts rnm answerOf answers qs = Ok ds) <->
  ((answers <> JNull \/ qs = []) /\
   Forall (fun q => js_String nts (id q) <> None /\
                    exists b, checkAnswer nts q (answerOf (id q)) = Ok b) qs).
Proof.
  induction qs as [|q qs IH]; simpl.
  - split; [intros _; split; [right; reflexivity | constructor] | eauto].
  - split.
    + intros [ds H].
      destruct (grade nts rnm answerOf answers q) as [d|m] eqn:E1; [|discriminate].
      destruct (grade_all nts rnm answerOf answers qs) as [ds'|m] eqn:E2; [|discriminate].
      destruct (proj1 (grade_success nts rnm answerOf answers q) (ex_intro _ d E1))
        as [Hn [Hk Hc]].
      destruct (proj1 IH (ex_intro _ ds' eq_refl)) as [_ HF].
      split; [left; exact Hn | constructor; [split|]; assumption].
    + intros [[Hn|Hn] HF]; [|discriminate].
      inversion HF as [|? ? [Hk Hc] HF']; subst.
      destruct (proj2 (grade_success nts rnm answerOf answers q) (conj Hn (conj Hk Hc)))
        as [d E1].
      destruct (proj2 IH (conj (or_introl Hn) HF')) as [ds' E2].
      rewrite E1, E2. eexists; reflexivity.
Qed.



Lemma Forall2_filter_length {A B : Type} (f : A -> bool) (g : B -> bool) l1 l2 :
  Forall2 (fun a b => f a = g b) l1 l2 -> length (filter g l2) = length (filter f l1).
Proof.
  induction 1 as [|x y l1 l2 Hxy _ IH]; simpl; [reflexivity|].
  rewrite Hxy. destruct (g y); simpl; congruence.
Qed.

End QuizServiceFacts.

Module QuizServiceExtras.
Import Json Normaliser AIService QuizService QuizServiceFacts ServiceInputs.

(** [storeResult] grades every question of the stored quiz once: when it
    returns, the [score] is the [correctCount], the number of questions
    whose submitted answer [checkAnswer] accepts; there is one entry of
    [detailedResults] per question, in order, holding the question id, the
    submitted answer and the verdict of [checkAnswer], and
    [score + incorrectCount = totalQuestions]. *)
Theorem storeResult_counts (number_to_string : Q -> string)
  (round_percentage : nat -> nat -> option Z) (timestamp : string)
  (read_null_message : value -> string) (quizId : string)
  (answers : value) (answerOf : value -> option value) (st : quiz_state)
  (r : quiz_result) (st' : quiz_state) :
  storeResult number_to_string round_percentage timestamp read_null_message quizId answers
    answerOf st = Ok (r, st') ->
  exists quiz, getQuiz quizId st = Some quiz /\
    totalQuestions r = length (questions quiz) /\
    length (detailedResults r) = length (questions quiz) /\
    score r = correctCount r /\
    score r = length (filter (fun q => match checkAnswer number_to_string q (answerOf (id q)) with
                                       | Ok b => b
                                       | Err _ => false
                                       end) (questions quiz)) /\
    Forall2 (fun q d => questionId d = id q /\ userAnswer d = answerOf (id q) /\
                        checkAnswer number_to_string q (answerOf (id q)) = Ok (isCorrect d))
      (questions quiz) (detailedResults r) /\
    score r + incorrectCount r = totalQuestions r.
Proof.
  unfold storeResult. destruct (getQuiz quizId st) as [quiz|]; [|discriminate].
  destruct (grade_all number_to_string read_null_message answerOf answers (questions quiz))
    as [ds|m] eqn:Eg; [|discriminate].
  intros H. injection H as <- <-. exists quiz. simpl.
  pose proof (grade_all_ok _ _ _ _ _ _ Eg) as HF.
  pose proof (Forall2_length HF) as HL.
  assert (HC : length (filter isCorrect ds) =
               length (filter (fun q => match checkAnswer number_to_string q (answerOf (id q)) with
                                        | Ok b => b
                                        | Err _ => false
                                        end) (questions quiz))).
  { apply Forall2_filter_length. eapply Forall2_impl; [|exact HF].
    intros q d [_ [_ E]]. rewrite E. reflexivity. }
  pose proof (filter_length_le isCorrect ds).
  rewrite count_correct_filter.
  split; [reflexivity|]. split; [reflexivity|]. split; [symmetry; exact HL|].
  split; [reflexivity|]. split; [exact HC|]. split; [exact HF|]. lia.
Qed.

Lemma storeResult_counts_witness :
  exists r st',
    storeResult (fun _ => "1") (fun _ _ => Some 100%Z) "2026-01-01T00:01:00.000Z"
      read_null_msg "quiz_1" (JObj [("1", JStr " True ")]) sample_answerOf sample_state =
      Ok (r, st') /\
    exists quiz, getQuiz "quiz_1" sample_state = Some quiz /\
      totalQuestions r = length (questions quiz) /\
      length (detailedResults r) = length (questions quiz) /\
      score r = correctCount r /\
      score r = length (filter (fun q => match checkAnswer (fun _ => "1") q (sample_answerOf (id q))
                                         with
                                         | Ok b => b
                                         | Err _ => false
                                         end) (questions quiz)) /\
      Forall2 (fun q d => questionId d = id q /\ userAnswer d = sample_answerOf (id q) /\
                          checkAnswer (fun _ => "1") q (sample_answerOf (id q)) =
                            Ok (isCorrect d))
        (questions quiz) (detailedResults r) /\
      score r + incorrectCount r = totalQuestions r.
Proof.
  eexists. eexists. split; [vm_compute; reflexivity|].
  eapply (storeResult_counts (fun _ => "1") (fun _ _ => Some 100%Z)
           "2026-01-01T00:01:00.000Z" read_null_msg "quiz_1" (JObj [("1", JStr " True ")])
           sample_answerOf sample_state).
  vm_compute. reflexivity.
Defined.

(** A successful [storeResult] appends its result to the history of that
    quiz and to no other, raises [getStats().totalResults] by one and leaves
    the stored quizzes and course contents as they were. *)
Theorem storeResult_history (number_to_string : Q -> string)
  (round_percentage : nat -> nat -> option Z) (timestamp : string)
  (read_null_message : value -> string) (quizId : string)
  (answers : value) (answerOf : value -> option value) (st : quiz_state)
  (r : quiz_result) (st' : quiz_state) :
  storeResult number_to_string round_percentage timestamp read_null_message quizId answers
    answerOf st = Ok (r, st') ->
  getQuizResults quizId st' = (getQuizResults quizId st ++ [r])%list /\
  (forall other, other <> quizId -> getQuizResults other st' = getQuizResults other st) /\
  totalResults (getStats st') = S (totalResults (getStats st)) /\
  quizzes st' = quizzes st /\ courseContents st' = courseContents st.
Proof.
  unfold storeResult. destruct (getQuiz quizId st) as [quiz|]; [|discriminate].
  destruct (grade_all number_to_string read_null_message answerOf answers (questions quiz))
    as [ds|m]; [|discriminate].
  intros H. injection H as Hr <-. rewrite Hr.
  split; [|split; [|split; [|split]]]; try reflexivity.
  - unfold getQuizResults. simpl. now rewrite map_get_set_same.
  - intros other Hne. unfold getQuizResults. simpl. now rewrite map_get_set_other.
  - destruct st as [qz rs cc]. unfold getStats, getQuizResults. simpl.
    rewrite !fold_sizes.
    pose proof (sizes_set quizId
                  ((match map_get quizId rs with Some o => o | None => [] end) ++ [r])%list
                  rs) as E.
    rewrite length_app in E. simpl in E.
    destruct (map_get quizId rs); simpl in *; lia.
Qed.

Lemma storeResult_history_witness :
  exists r st',
    storeResult (fun _ => "1") (fun _ _ => Some 100%Z) "2026-01-01T00:01:00.000Z"
      read_null_msg "quiz_1" (JObj [("1", JStr " True ")]) sample_answerOf sample_state =
      Ok (r, st') /\
    getQuizResults "quiz_1" st' = (getQuizResults "quiz_1" sample_state ++ [r])%list /\
    (forall other, other <> "quiz_1" ->
       getQuizResults other st' = getQuizResults other sample_state) /\
    totalResults (getStats st') = S (totalResults (getStats sample_state)) /\
    quizzes st' = quizzes sample_state /\ courseContents st' = courseContents sample_state.
Proof.
  eexists. eexists. split; [vm_compute; reflexivity|].
  eapply (storeResult_history (fun _ => "1") (fun _ _ => Some 100%Z)
           "2026-01-01T00:01:00.000Z" read_null_msg "quiz_1" (JObj [("1", JStr " True ")])
           sample_answerOf sample_state).
  vm_compute. reflexivity.
Defined.

(** [checkAnswer] on a non-empty string answer ignores whitespace around it
    and the case of its letters: the padded answer is graded as the
    lower-cased one. *)
Theorem checkAnswer_padding_case (number_to_string : Q -> string) (q : quiz_question)
  (w1 s w2 : string) :
  all_ws w1 = true -> all_ws w2 = true -> s <> "" ->
  checkAnswer number_to_string q (Some (JStr (w1 ++ s ++ w2))) =
  checkAnswer number_to_string q (Some (JStr (toLowerCase s))).
Proof.
  intros H1 H2 Hs. unfold checkAnswer. simpl.
  assert (Ne : forall t : string, t <> "" -> String.eqb t "" = false)
    by (intros t Ht; apply String.eqb_neq; exact Ht).
  rewrite (Ne (w1 ++ s ++ w2)%string).
  2:{ destruct w1; simpl; [destruct s; [congruence|]; simpl|]; discriminate. }
  rewrite (Ne (toLowerCase s)).
  2:{ intros E. apply (f_equal String.length) in E. rewrite toLowerCase_length in E.
      destruct s; [congruence|]. simpl in E. lia. }
  simpl. destruct (js_String_opt number_to_string (correctAnswer q)); [|reflexivity].
  rewrite toLowerCase_idem, !toLowerCase_app, (toLowerCase_ws w1 H1),
    (toLowerCase_ws w2 H2), trim_padding by assumption. reflexivity.
Qed.

Lemma checkAnswer_padding_case_witness :
  all_ws " " = true /\ all_ws "  " = true /\ "TRUE" <> "" /\
  checkAnswer (fun _ => "1") (hd_quiz sample_quiz) (Some (JStr (" " ++ "TRUE" ++ "  "))) =
  checkAnswer (fun _ => "1") (hd_quiz sample_quiz) (Some (JStr (toLowerCase "TRUE"))).
Proof.
  split; [reflexivity|]. split; [reflexivity|]. split; [discriminate|].
  apply checkAnswer_padding_case; [reflexivity | reflexivity | discriminate].
Defined.

(** [checkAnswer] turns a falsy answer ([undefined], [false], [0], the empty
    string, [null]) down whatever the expected answer; so a boolean [true]
    passes for the expected answer 'true', but a boolean [false] never
    passes for 'false', while the string 'false' does. *)
Theorem checkAnswer_boolean_answers (number_to_string : Q -> string) (q : quiz_question) :
  checkAnswer number_to_string q None = Ok false /\
  (forall u, truthy u = false -> checkAnswer number_to_string q (Some u) = Ok false) /\
  (correctAnswer q = Some (JStr "true") ->
     checkAnswer number_to_string q (Some (JBool true)) = Ok true) /\
  (correctAnswer q = Some (JStr "false") ->
     checkAnswer number_to_string q (Some (JBool false)) = Ok false /\
     checkAnswer number_to_string q (Some (JStr "false")) = Ok true).
Proof.
  split; [reflexivity|]. split.
  - intros u Hu. unfold checkAnswer. now rewrite Hu.
  - split; intros E; unfold checkAnswer; rewrite E; split || reflexivity; reflexivity.
Qed.

Lemma checkAnswer_boolean_answers_witness :
  correctAnswer (hd_quiz sample_quiz) = Some (JStr "true") /\
  checkAnswer (fun _ => "1") (hd_quiz sample_quiz) (Some (JBool true)) = Ok true.
Proof.
  split; [reflexivity|].
  destruct (checkAnswer_boolean_answers (fun _ => "1") (hd_quiz sample_quiz))
    as [_ [_ [H _]]].
  apply H. reflexivity.
Defined.

(** [storeQuiz] then [getQuiz] gives back the stored quiz with its
    questions; other quizzes and the results already stored under the id are
    kept, and [totalQuizzes] grows by one for a new id only. [storeResult]
    on the id then succeeds, grading exactly the stored questions, if and
    only if [answers] is not [null] (or there is no question) and, for every
    question, its id converts to a property key and [checkAnswer] returns on
    the answer read at it. *)
Theorem storeQuiz_roundtrip (number_to_string : Q -> string)
  (round_percentage : nat -> nat -> option Z) (timestamp timestamp' : string)
  (read_null_message : value -> string)
  (quizId courseId : string) (qs : list quiz_question) (st : quiz_state)
  (answers : value) (answerOf : value -> option value) :
  let stored := storeQuiz timestamp quizId courseId qs st in
  getQuiz quizId (snd stored) = Some (fst stored) /\ questions (fst stored) = qs /\
  (forall other, other <> quizId -> getQuiz other (snd stored) = getQuiz other st) /\
  getQuizResults quizId (snd stored) = getQuizResults quizId st /\
  totalQuizzes (getStats (snd stored)) =
    match getQuiz quizId st with
    | Some _ => totalQuizzes (getStats st)
    | None => S (totalQuizzes (getStats st))
    end /\
  ((exists r st',
      storeResult number_to_string round_percentage timestamp' read_null_message quizId
        answers answerOf (snd stored) = Ok (r, st') /\ totalQuestions r = length qs) <->
   ((answers <> JNull \/ qs = []) /\
    Forall (fun q => js_String number_to_string (id q) <> None /\
                     exists b, checkAnswer number_to_string q (answerOf (id q)) = Ok b) qs)).
Proof.
  intros stored. subst stored. unfold storeQuiz, getQuiz, getStats. simpl.
  split; [now rewrite map_get_set_same|].
  split; [reflexivity|].
  split; [intros other Hne; now rewrite map_get_set_other|].
  split; [reflexivity|].
  split; [apply map_set_length|].
  rewrite <- (grade_all_success number_to_string read_null_message answerOf answers qs).
  unfold storeResult, getQuiz. cbn [quizzes]. rewrite map_get_set_same. cbn [questions].
  destruct (grade_all number_to_string read_null_message answerOf answers qs) as [ds|m].
  - split; [intros _; eexists; reflexivity|].
    intros _. eexists. eexists. split; reflexivity.
  - split; [intros [r [st' [H _]]]; discriminate|].
    intros [ds H]; discriminate.
Qed.

(** [storeCourseContent] then [getCourseContent] gives back the stored
    record with its content and file name; other courses, the quizzes and
    the results are unchanged. *)
Theorem storeCourseContent_roundtrip (timestamp courseId content filename : string)
  (st : quiz_state) :
  let stored := storeCourseContent timestamp courseId content filename st in
  getCourseContent courseId (snd stored) = Some (fst stored) /\
  QuizService.content (fst stored) = content /\ QuizService.filename (fst stored) = filename /\
  (forall other, other <> courseId ->
     getCourseContent other (snd stored) = getCourseContent other st) /\
  quizzes (snd stored) = quizzes st /\ results (snd stored) = results st.
Proof.
  intros stored. subst stored. unfold storeCourseContent, getCourseContent. simpl.
  split; [now rewrite map_get_set_same|].
  do 2 (split; [reflexivity|]).
  split; [intros other Hne; now rewrite map_get_set_other|].
  split; reflexivity.
Qed.

End QuizServiceExtras.

Module StatementFacts.
Import Json Normaliser AIService QuizService QuizServiceFacts StatementService.

Lemma string_of_uint_sep d d' x y :
  (NilEmpty.string_of_uint d ++ String "_" x = NilEmpty.string_of_uint d' ++ String "_" y)%string ->
  d = d' /\ x = y.
Proof.
  revert d'; induction d as [|d IH|d IH|d IH|d IH|d IH|d IH|d IH|d IH|d IH|d IH];
    destruct d'; simpl; intros H; try discriminate;
    injection H as H; try (split; congruence);
    destruct (IH _ H); subst; split; reflexivity.
Qed.

Lemma prefix_cancel p a b : (p ++ a = p ++ b)%string -> a = b.
Proof. induction p as [|c p IH]; simpl; intros H; [exact H|]. injection H as H. auto. Qed.

Lemma issued_key_inj k t k' t' :
  ("stmt_" ++ nat_str k ++ "_" ++ nat_str t)%string =
  ("stmt_" ++ nat_str k' ++ "_" ++ nat_str t')%string -> k = k'.
Proof.
  intros H. apply prefix_cancel in H. unfold nat_str in H.
  apply string_of_uint_sep in H as [H _]. apply Unsigned.to_uint_inj, H.
Qed.



Lemma Forall_map_set {V : Type} (P : string * V -> Prop) k v m :
  Forall P m -> P (k, v) -> Forall P (map_set k v m).
Proof.
  intros H Hp. induction H as [|[k' v'] m Hx Hm IH]; simpl; [constructor; auto|].
  destruct (String.eqb k k'); constructor; auto.
Qed.

Lemma Forall_map_get {V : Type} (P : string * V -> Prop) k v m :
  Forall P m -> map_get k m = Some v -> P (k, v).
Proof.
  intros H. induction H as [|[k' v'] m Hx Hm IH]; simpl; [discriminate|].
  destruct (String.eqb k k') eqn:E; [|exact IH].
  apply String.eqb_eq in E. subst k'. intros Hv. injection Hv as <-. exact Hx.
Qed.

Lemma Forall_map_delete {V : Type} (P : string * V -> Prop) k m :
  Forall P m -> Forall P (map_delete k m).
Proof.
  intros H. induction H as [|e m Hx Hm IH]; simpl; [constructor|].
  destruct (negb (String.eqb k (fst e))); [constructor|]; auto.
Qed.

Lemma map_get_absent {V : Type} (Q : string -> Prop) k (m : list (string * V)) :
  Forall (fun e => Q (fst e)) m -> ~ Q k -> map_get k m = None.
Proof.
  intros H Hq. destruct (map_get k m) as [v|] eqn:E; [|reflexivity].
  exfalso. apply Hq. exact (Forall_map_get (fun e => Q (fst e)) k v m H E).
Qed.

Lemma parse_truthy JSON_parse r : truthy (parseQuestionsFromContent JSON_parse r) = true.
Proof.
  destruct r as [e| |text]; simpl; try reflexivity.
  destruct (JSON_parse (strip_fences (trim text))) as [v|]; [|reflexivity].
  assert (G : forall o, truthy (js_or o (JArr [])) = true)
    by (intros [w|]; simpl; [destruct (truthy w) eqn:E; [exact E|reflexivity]|reflexivity]).
  destruct v; apply G || reflexivity.
Qed.

Lemma issued_mono st st' key :
  idCounter st <= idCounter st' -> issued_key st key -> issued_key st' key.
Proof. intros Hle [k [t [E Hk]]]. exists k, t. split; [exact E|lia]. Qed.

Lemma Forall_issued_mono {V : Type} (P : V -> Prop) st st' (m : list (string * V)) :
  idCounter st <= idCounter st' ->
  Forall (fun e => P (snd e) /\ issued_key st (fst e)) m ->
  Forall (fun e => P (snd e) /\ issued_key st' (fst e)) m.
Proof.
  intros Hle. apply Forall_impl. intros e [H1 H2]. split; [exact H1|].
  exact (issued_mono st st' (fst e) Hle H2).
Qed.

Lemma inv_initial : statement_inv initial_statement_state.
Proof. split; constructor. Qed.

Lemma inv_process originalname path now_ms timestamp st :
  statement_inv st ->
  statement_inv (snd (processStatement originalname path now_ms timestamp st)).
Proof.
  intros [Hd Hc]. unfold processStatement, statement_inv. simpl. split.
  - apply Forall_map_set.
    + apply (Forall_issued_mono (fun s => truthy (statement_questions s) = true) st); simpl;
        [lia|exact Hd].
    + simpl. split; [reflexivity|]. exists (idCounter st), now_ms. split; [reflexivity|].
      simpl. lia.
  - eapply Forall_impl; [|exact Hc]. intros e H.
    apply (issued_mono st); [simpl; lia|exact H].
Qed.

Lemma inv_extract JSON_parse statementId vision questions_reply st qs st' :
  statement_inv st ->
  extractQuestions JSON_parse statementId vision questions_reply st = Ok (qs, st') ->
  statement_inv st'.
Proof.
  intros [Hd Hc]. unfold extractQuestions.
  destruct (map_get statementId (documents st)) as [s|] eqn:Es; [|discriminate].
  destruct (extractContent vision) as [c|m]; [|discriminate].
  intros H. injection H as <- <-.
  pose proof (Forall_map_get _ statementId s _ Hd Es) as [_ Hkey]. simpl in Hkey.
  unfold statement_inv. simpl. split.
  - apply Forall_map_set; [exact Hd|]. simpl. split; [apply parse_truthy|exact Hkey].
  - apply (Forall_map_set (fun e => issued_key st (fst e))); [exact Hc|exact Hkey].
Qed.

Lemma inv_select null_read_message statementId st v st' :
  statement_inv st -> selectStatement null_read_message statementId st = Ok (v, st') ->
  statement_inv st'.
Proof.
  intros Hi. unfold selectStatement.
  destruct (map_get statementId (documents st)) as [s|]; [|discriminate].
  destruct (statement_questions s); try discriminate;
    intros H; injection H as _ <-; exact Hi.
Qed.

Lemma inv_remove unlink_ok statementId files st b st' files' :
  statement_inv st -> removeStatement unlink_ok statementId files st = (b, st', files') ->
  statement_inv st'.
Proof.
  intros [Hd Hc]. unfold removeStatement.
  destruct (map_get statementId (documents st)) as [s|].
  2:{ intros H. injection H as _ <- _. split; assumption. }
  assert (R : statement_inv
     {| documents := map_delete statementId (documents st);
        questionCache := map_delete statementId (questionCache st);
        activeStatement :=
          match activeStatement st with
          | Some a => if String.eqb a statementId then None else Some a
          | None => None
          end;
        idCounter := idCounter st |})
    by (split; apply Forall_map_delete; assumption).
  destruct (negb (String.eqb (originalPath s) "") &&
            existsb (String.eqb (originalPath s)) files);
    [destruct (unlink_ok (originalPath s))|];
    intros H; injection H as _ <- _; try exact R; split; assumption.
Qed.

Lemma reachable_inv JSON_parse unlink_ok st :
  reachable JSON_parse unlink_ok st -> statement_inv st.
Proof.
  induction 1.
  - apply inv_initial.
  - apply inv_process; assumption.
  - eapply inv_extract; eassumption.
  - eapply inv_select; eassumption.
  - eapply inv_remove; eassumption.
  - apply inv_initial.
Qed.

End StatementFacts.

Module StatementExtras.
Import Json Normaliser AIService AIServiceFacts QuizService QuizServiceFacts StatementService
  StatementFacts ServiceInputs.

(** [parseQuestionsFromContent] never fails and never gives a falsy value:
    it gives either [[]] or the truthy [questions] member of the object the
    cleaned reply parses to, whether an array or not. *)
Theorem parseQuestionsFromContent_result (JSON_parse : string -> option value)
  (reply : chat_reply) :
  truthy (parseQuestionsFromContent JSON_parse reply) = true /\
  (parseQuestionsFromContent JSON_parse reply = JArr [] \/
   exists text fs, reply = Content text /\
     JSON_parse (strip_fences (trim text)) = Some (JObj fs) /\
     get "questions" fs = Some (parseQuestionsFromContent JSON_parse reply)).
Proof.
  split; [apply parse_truthy|].
  destruct reply as [e| |text]; simpl; try (left; reflexivity).
  destruct (JSON_parse (strip_fences (trim text))) as [v|] eqn:Ep; [|left; reflexivity].
  destruct v as [| | | | |fs]; simpl; try (left; reflexivity).
  destruct (get "questions" fs) as [w|] eqn:Eg; simpl; [|left; reflexivity].
  destruct (truthy w); [|left; reflexivity].
  right. exists text, fs. auto.
Qed.

(** A successful [extractQuestions] stores the extracted content and the
    parsed questions in the statement, marks it processed, and
    [getQuestions] then gives those questions; other statements, their
    questions and the active statement are unchanged. *)
Theorem extractQuestions_success (JSON_parse : string -> option value)
  (statementId : string) (vision : chat_reply) (questions_reply : string -> chat_reply)
  (st : statement_state) (qs : value) (st' : statement_state) :
  extractQuestions JSON_parse statementId vision questions_reply st = Ok (qs, st') ->
  exists s c,
    map_get statementId (documents st) = Some s /\ extractContent vision = Ok c /\
    qs = parseQuestionsFromContent JSON_parse (questions_reply c) /\
    getQuestions statementId st' = qs /\
    map_get statementId (documents st') =
      Some {| statement_id := statement_id s; statement_filename := statement_filename s;
              originalPath := originalPath s; statement_content := JStr c;
              statement_questions := qs; statement_timestamp := statement_timestamp s;
              processed := true |} /\
    (forall other, other <> statementId ->
       map_get other (documents st') = map_get other (documents st) /\
       getQuestions other st' = getQuestions other st) /\
    activeStatement st' = activeStatement st.
Proof.
  unfold extractQuestions.
  destruct (map_get statementId (documents st)) as [s|] eqn:Es; [|discriminate].
  destruct (extractContent vision) as [c|m] eqn:Ec; [|discriminate].
  intros H. injection H as <- <-. exists s, c.
  split; [reflexivity|]. split; [reflexivity|]. split; [reflexivity|].
  split; [unfold getQuestions; simpl; now rewrite map_get_set_same|].
  split; [simpl; now rewrite map_get_set_same|].
  split; [|reflexivity].
  intros other Hne. simpl. rewrite map_get_set_other by exact Hne. split; [reflexivity|].
  unfold getQuestions. simpl. rewrite !map_get_set_other by exact Hne. reflexivity.
Qed.

Lemma extractQuestions_success_witness :
  exists qs st',
    extractQuestions parse "stmt_1_5000" (Content "Q1. Compute 2+2.")
      (fun _ => Content (Normaliser.q "{'questions': [{'number': '1', 'text': 'Compute 2+2.'}]}"))
      (snd upload) = Ok (qs, st') /\
    exists s c,
      map_get "stmt_1_5000" (documents (snd upload)) = Some s /\
      extractContent (Content "Q1. Compute 2+2.") = Ok c /\
      qs = parseQuestionsFromContent parse
             ((fun _ => Content (Normaliser.q
                 "{'questions': [{'number': '1', 'text': 'Compute 2+2.'}]}")) c) /\
      getQuestions "stmt_1_5000" st' = qs /\
      map_get "stmt_1_5000" (documents st') =
        Some {| statement_id := statement_id s; statement_filename := statement_filename s;
                originalPath := originalPath s; statement_content := JStr c;
                statement_questions := qs; statement_timestamp := statement_timestamp s;
                processed := true |} /\
      (forall other, other <> "stmt_1_5000" ->
         map_get other (documents st') =
           map_get other (documents (snd upload)) /\
         getQuestions other st' =
           getQuestions other (snd upload)) /\
      activeStatement st' =
        activeStatement (snd upload).
Proof.
  eexists. eexists. split; [vm_compute; reflexivity|].
  eapply extractQuestions_success. vm_compute. reflexivity.
Defined.

(** [extractQuestions] fails only on an unknown id or on a vision reply
    without content, with the message of the thrown error wrapped once. *)
Theorem extractQuestions_errors (JSON_parse : string -> option value)
  (statementId : string) (vision : chat_reply) (questions_reply : string -> chat_reply)
  (st : statement_state) (m : string) :
  extractQuestions JSON_parse statementId vision questions_reply st = Err m ->
  (map_get statementId (documents st) = None /\
   m = "Failed to extract questions: Statement document not found") \/
  (exists s, map_get statementId (documents st) = Some s /\
   extractContent vision = Err "Failed to extract content from images" /\
   m = "Failed to extract questions: Failed to extract content from images").
Proof.
  unfold extractQuestions.
  destruct (map_get statementId (documents st)) as [s|] eqn:Es.
  - destruct (extractContent vision) as [c|m'] eqn:Ec; [discriminate|].
    intros H. injection H as <-. right. exists s.
    pose proof (extractContent_err _ _ Ec) as ->. auto.
  - intros H. injection H as <-. left. auto.
Qed.

Lemma extractQuestions_errors_witness :
  extractQuestions parse "stmt_1_5000" (Content "") (fun _ => Content "{}")
    (snd upload) =
    Err "Failed to extract questions: Failed to extract content from images" /\
  ((map_get "stmt_1_5000" (documents (snd upload)) = None /\
    "Failed to extract questions: Failed to extract content from images" =
      "Failed to extract questions: Statement document not found") \/
   (exists s, map_get "stmt_1_5000" (documents (snd upload)) = Some s /\
    extractContent (Content "") = Err "Failed to extract content from images" /\
    "Failed to extract questions: Failed to extract content from images" =
      "Failed to extract questions: Failed to extract content from images")).
Proof.
  split; [vm_compute; reflexivity|].
  apply (extractQuestions_errors parse "stmt_1_5000" (Content "") (fun _ => Content "{}")).
  vm_compute. reflexivity.
Defined.




(** In every state the service reaches, [selectStatement] on a stored id
    succeeds: the stored [questions] are never [null], so reading their
    [length] does not throw; [getActiveStatement] then gives that
    statement. *)
Theorem selectStatement_stored (JSON_parse : string -> option value)
  (unlink_ok : string -> bool) (null_read_message : string -> string)
  (st : statement_state) (statementId : string) (s : statement) :
  reachable JSON_parse unlink_ok st ->
  map_get statementId (documents st) = Some s ->
  exists v st', selectStatement null_read_message statementId st = Ok (v, st') /\
    getActiveStatement st' = Some s /\ documents st' = documents st /\
    getQuestions statementId st' = getQuestions statementId st.
Proof.
  intros Hr Hs. destruct (reachable_inv _ _ _ Hr) as [Hd _].
  destruct (Forall_map_get _ _ _ _ Hd Hs) as [Ht [k [t [Ek _]]]]. simpl in Ht, Ek.
  unfold selectStatement. rewrite Hs.
  destruct (statement_questions s) eqn:Eq; [discriminate| | | | |];
    eexists; eexists; (split; [reflexivity|]);
    (split; [|split; reflexivity]);
    unfold getActiveStatement; simpl; rewrite Ek; simpl; rewrite <- Ek; exact Hs.
Qed.

Lemma selectStatement_stored_witness :
  reachable parse (fun _ => true) (snd upload) /\
  map_get "stmt_1_5000" (documents (snd upload)) = Some (fst upload) /\
  exists v st', selectStatement null_msg "stmt_1_5000" (snd upload) = Ok (v, st') /\
    getActiveStatement st' = Some (fst upload) /\ documents st' = documents (snd upload) /\
    getQuestions "stmt_1_5000" st' = getQuestions "stmt_1_5000" (snd upload).
Proof.
  assert (R : reachable parse (fun _ => true) (snd upload))
    by exact (reachable_process parse (fun _ => true) "exam.pdf" "uploads/exam.pdf" 5000
                "2026-01-01T00:00:00.000Z" _ (reachable_initial _ _)).
  split; [exact R|]. split; [vm_compute; reflexivity|].
  apply (selectStatement_stored parse (fun _ => true) null_msg (snd upload) "stmt_1_5000"
           (fst upload) R).
  vm_compute. reflexivity.
Defined.

(** In every state the service reaches, [processStatement] makes an id no
    statement and no cached question list has: the new statement is added
    (the map grows by one, the others stay) and its questions are [[]]. *)
Theorem processStatement_fresh (JSON_parse : string -> option value)
  (unlink_ok : string -> bool) (originalname path : string) (now_ms : nat)
  (timestamp : string) (st : statement_state) :
  reachable JSON_parse unlink_ok st ->
  let r := processStatement originalname path now_ms timestamp st in
  map_get (statement_id (fst r)) (documents st) = None /\
  getQuestions (statement_id (fst r)) st = JArr [] /\
  getQuestions (statement_id (fst r)) (snd r) = JArr [] /\
  length (documents (snd r)) = S (length (documents st)) /\
  (forall other, other <> statement_id (fst r) ->
     map_get other (documents (snd r)) = map_get other (documents st)).
Proof.
  intros Hr r. subst r. destruct (reachable_inv _ _ _ Hr) as [Hd Hc].
  unfold processStatement.
  cbn [fst snd statement_id statement_questions documents questionCache].
  set (key := ("stmt_" ++ nat_str (idCounter st) ++ "_" ++ nat_str now_ms)%string).
  assert (Fresh : ~ issued_key st key).
  { intros [k [t [E Hk]]]. apply issued_key_inj in E. lia. }
  assert (Ad : map_get key (documents st) = None).
  { apply (map_get_absent (issued_key st)); [|exact Fresh].
    eapply Forall_impl; [|exact Hd]. intros e [_ H]. exact H. }
  assert (Ac : map_get key (questionCache st) = None)
    by (apply (map_get_absent (issued_key st)); [exact Hc|exact Fresh]).
  split; [exact Ad|].
  split; [unfold getQuestions; rewrite Ac, Ad; reflexivity|].
  split; [unfold getQuestions; cbn [questionCache documents]; rewrite Ac, map_get_set_same; reflexivity|].
  split; [rewrite map_set_length, Ad; reflexivity|].
  intros other Hne. apply map_get_set_other, Hne.
Qed.

Lemma processStatement_fresh_witness :
  reachable parse (fun _ => true) (snd upload) /\
  map_get (statement_id (fst (processStatement "notes.pdf" "uploads/notes.pdf" 5000
             "2026-01-01T00:00:01.000Z" (snd upload)))) (documents (snd upload)) = None /\
  length (documents (snd (processStatement "notes.pdf" "uploads/notes.pdf" 5000
             "2026-01-01T00:00:01.000Z" (snd upload)))) = S (length (documents (snd upload))).
Proof.
  assert (R : reachable parse (fun _ => true) (snd upload))
    by exact (reachable_process parse (fun _ => true) "exam.pdf" "uploads/exam.pdf" 5000
                "2026-01-01T00:00:00.000Z" _ (reachable_initial _ _)).
  destruct (processStatement_fresh parse (fun _ => true) "notes.pdf" "uploads/notes.pdf" 5000
              "2026-01-01T00:00:01.000Z" (snd upload) R) as [H1 [_ [_ [H4 _]]]].
  split; [exact R|]. split; [exact H1|exact H4].
Defined.

(** [cleanup] resets the instance to its initial state and removes from the
    file system only files of stored statements: every non-empty path of a
    stored statement whose unlink succeeds is gone afterwards. *)
Theorem cleanup_files (unlink_ok : string -> bool) (files : list string)
  (st : statement_state) :
  fst (cleanup unlink_ok files st) = initial_statement_state /\
  (forall f, In f (snd (cleanup unlink_ok files st)) -> In f files) /\
  (forall f, In f files -> ~ In f (snd (cleanup unlink_ok files st)) ->
     exists e, In e (documents st) /\ originalPath (snd e) = f) /\
  (forall e, In e (documents st) -> originalPath (snd e) <> "" ->
     unlink_ok (originalPath (snd e)) = true ->
     ~ In (originalPath (snd e)) (snd (cleanup unlink_ok files st))).
Proof.
  unfold cleanup. simpl. split; [reflexivity|].
  set (step := fun fs (e : string * statement) =>
                 let p := originalPath (snd e) in
                 if negb (String.eqb p "") && existsb (String.eqb p) fs then
                   if unlink_ok p then filter (fun f => negb (String.eqb p f)) fs else fs
                 else fs).
  assert (Sub : forall fs e f, In f (step fs e) -> In f fs).
  { intros fs e f. unfold step.
    destruct (_ && _); [destruct (unlink_ok _)|]; auto.
    rewrite filter_In. intros [H _]. exact H. }
  assert (Keep : forall fs e f, In f fs -> f <> originalPath (snd e) -> In f (step fs e)).
  { intros fs e f Hf Hne. unfold step.
    destruct (_ && _); [destruct (unlink_ok _)|]; auto.
    apply filter_In. split; [exact Hf|]. apply negb_true_iff, String.eqb_neq. auto. }
  assert (Drop : forall fs e, originalPath (snd e) <> "" ->
                   unlink_ok (originalPath (snd e)) = true ->
                   ~ In (originalPath (snd e)) (step fs e)).
  { intros fs e Hp Hu. unfold step. simpl.
    destruct (existsb (String.eqb (originalPath (snd e))) fs) eqn:Ex.
    - replace (negb (String.eqb (originalPath (snd e)) "")) with true
        by (symmetry; apply negb_true_iff, String.eqb_neq; exact Hp).
      simpl. rewrite Hu. rewrite filter_In. intros [_ H].
      rewrite String.eqb_refl in H. discriminate.
    - rewrite andb_false_r. intros Hin.
      assert (existsb (String.eqb (originalPath (snd e))) fs = true)
        by (apply existsb_exists; eexists; split; [exact Hin|apply String.eqb_refl]).
      congruence. }
  generalize files. induction (documents st) as [|d ds IH]; intros fs; simpl.
  - split; [auto|]. split; [intros f H1 H2; contradiction|]. intros e [].
  - destruct (IH (step fs d)) as [I1 [I2 I3]]. split; [|split].
    + intros f H. apply (Sub fs d), I1, H.
    + intros f Hf Hout.
      destruct (string_dec f (originalPath (snd d))) as [E|Hne].
      * exists d. split; [left; reflexivity|symmetry; exact E].
      * destruct (I2 f (Keep fs d f Hf Hne) Hout) as [e [He Ef]].
        exists e. split; [right; exact He|exact Ef].
    + intros e [->|He] Hp Hu.
      * assert (G : forall l fs0, ~ In (originalPath (snd e)) fs0 ->
                  ~ In (originalPath (snd e)) (fold_left step l fs0)).
        { induction l as [|x l IHl]; intros fs0 H0; simpl; [exact H0|].
          apply IHl. intros Hx. apply H0, (Sub fs0 x), Hx. }
        apply G, Drop; assumption.
      * apply I3; assumption.
Qed.

End StatementExtras.

Module RouteExtras.
Import Json Normaliser AIService QuizService QuizServiceFacts StatementService StatementFacts StatementExtras
  Routes ServiceInputs.





End RouteExtras.
